(** * On-device training notebook (train.ipynb): dataset indexing, image
      preprocessing and the training loop

    The notebook's own code is four cells: [load_dataset_files], the
    preprocessor [image_file_to_tensor], the training loop and the
    [softmax]/[predict] display.  This development embeds the first three,
    and of the fourth the arithmetic of [softmax] and the input of [predict].

    - Python integers are [Z]; [//] is [Z.div] (both round towards minus
      infinity).
    - A Python [dict] is an association list: the loops of the notebook
      iterate over the keys, so insertion order is part of the behaviour.
    - A PIL image is its size, its number of bands and a pixel function; a
      numpy array is its shape and an item function.
    - An exception is a value of [exn]; statements that can raise live in a
      small exception monad, the training loop in a monad that also threads
      the runtime's state and the event log. *)

From Stdlib Require Import ZArith QArith Qabs List Ascii String DecimalString Bool Lia SpecFloat.
Import ListNotations.
Local Open Scope Z_scope.

(** ** The centred square crop of [image_file_to_tensor] *)

(** The box handed to [image.crop], in PIL's order (left, top, right, bottom):

<<
    if width > height:
        left = (width - height) // 2
        right = (width + height) // 2
        top = 0
        bottom = height
    else:
        left = 0
        right = width
        top = (height - width) // 2
        bottom = (height + width) // 2
>> *)
Definition crop_box (width height : Z) : Z * Z * Z * Z :=
  if width >? height then
    let left := (width - height) / 2 in
    let right := (width + height) / 2 in
    let top := 0 in
    let bottom := height in
    (left, top, right, bottom)
  else
    let left := 0 in
    let right := width in
    let top := (height - width) / 2 in
    let bottom := (height + width) / 2 in
    (left, top, right, bottom).

Definition box_left (b : Z * Z * Z * Z) : Z := let '(l, _, _, _) := b in l.
Definition box_top (b : Z * Z * Z * Z) : Z := let '(_, t, _, _) := b in t.
Definition box_right (b : Z * Z * Z * Z) : Z := let '(_, _, r, _) := b in r.
Definition box_bottom (b : Z * Z * Z * Z) : Z := let '(_, _, _, b) := b in b.

(** What the crop removes on each side of a [width] x [height] image. *)
Definition left_margin (width height : Z) : Z := box_left (crop_box width height).
Definition right_margin (width height : Z) : Z := width - box_right (crop_box width height).
Definition top_margin (width height : Z) : Z := box_top (crop_box width height).
Definition bottom_margin (width height : Z) : Z := height - box_bottom (crop_box width height).

(** ** Exceptions *)

Inductive exn : Type :=
| FileNotFoundError
| IsADirectoryError
| UnidentifiedImageError
| DecompressionBombError
| OSError
| IndexError
| KeyError
| ValueError
| RuntimeError.

Inductive result (A : Type) : Type :=
| Ok (a : A)
| Raise (e : exn).
Arguments Ok {A} a.
Arguments Raise {A} e.

Definition bind {A B : Type} (r : result A) (k : A -> result B) : result B :=
  match r with
  | Ok a => k a
  | Raise e => Raise e
  end.

Declare Scope result_scope.
Delimit Scope result_scope with result.
Notation "x <- r ;; k" := (bind r (fun x => k))
  (at level 61, r at next level, right associativity) : result_scope.
Notation "' p <- r ;; k" := (bind r (fun p => k))
  (at level 61, p pattern, r at next level, right associativity) : result_scope.

Definition is_ok {A : Type} (r : result A) : bool :=
  match r with Ok _ => true | Raise _ => false end.

(** ** Python lists, ranges and dicts *)

(** [range(n)] *)
Definition range (n : Z) : list Z := map Z.of_nat (seq 0 (Z.to_nat n)).

(** [l[i]]: a negative index counts from the end, anything else outside the
    list raises [IndexError]. *)
Definition list_getitem {A : Type} (l : list A) (i : Z) : result A :=
  let n := Z.of_nat (List.length l) in
  let j := if i <? 0 then i + n else i in
  if (0 <=? j) && (j <? n) then
    match nth_error l (Z.to_nat j) with
    | Some a => Ok a
    | None => Raise IndexError
    end
  else Raise IndexError.

(** A dict with string keys, in insertion order. *)
Definition dict (V : Type) : Type := list (string * V).

Definition keys {V : Type} (d : dict V) : list string := map fst d.

(** [d[k]] *)
Fixpoint dict_getitem {V : Type} (d : dict V) (k : string) : result V :=
  match d with
  | [] => Raise KeyError
  | (k', v) :: d' => if String.eqb k k' then Ok v else dict_getitem d' k
  end.

(** [d[k] = v]: an existing key keeps its place, a new one goes last. *)
Fixpoint dict_setitem {V : Type} (d : dict V) (k : string) (v : V) : dict V :=
  match d with
  | [] => [(k, v)]
  | (k', v') :: d' =>
      if String.eqb k k' then (k', v) :: d' else (k', v') :: dict_setitem d' k v
  end.

(** ** PIL images *)

Module PIL.

(** An image: [size] is (width, height), [bands] the number of bands of its
    mode (1 for L and P, 2 for LA, 3 for RGB, 4 for RGBA and CMYK), and
    [getpixel x y c] the value of band [c] at column [x], row [y]. *)
Record Image : Type := {
  size : Z * Z;
  bands : Z;
  getpixel : Z -> Z -> Z -> Z
}.

(** The library's limit on the number of pixels; [Image.open] refuses an
    image of more than twice as many. *)
Definition MAX_IMAGE_PIXELS : Z := 89478485.

Definition decompression_bomb (sz : Z * Z) : bool :=
  2 * MAX_IMAGE_PIXELS <? Z.max 1 (fst sz) * Z.max 1 (snd sz).

(** A resampling filter: the pixels of the image resized to the given size. *)
Definition filter : Type := Image -> Z * Z -> Z -> Z -> Z -> Z.

(** The NEAREST filter: every output pixel is the input pixel under its
    centre. *)
Definition NEAREST : filter :=
  fun im '(w, h) x y c =>
    let '(sw, sh) := size im in
    getpixel im (((2 * x + 1) * sw) / (2 * w)) (((2 * y + 1) * sh) / (2 * h)) c.

(** [image.crop((left, top, right, bottom))] *)
Definition crop (im : Image) (box : Z * Z * Z * Z) : Image :=
  let '(x0, y0, x1, y1) := box in
  {| size := (x1 - x0, y1 - y0);
     bands := bands im;
     getpixel := fun x y c => getpixel im (x + x0) (y + y0) c |}.

(** [image.resize(size)]; which filter it applies by default depends on the
    version of the library, so the filter is an argument. *)
Definition resize (resample : filter) (im : Image) (sz : Z * Z) : Image :=
  {| size := sz;
     bands := bands im;
     getpixel := resample im sz |}.

End PIL.

(** ** The file system *)

(** What is at a path: a picture whose data decodes to [im]; a picture whose
    header reads as that of [im] but whose data is cut short; a file that is
    no picture; a directory. *)
Inductive file : Type :=
| ImageFile (im : PIL.Image)
| TruncatedImage (im : PIL.Image)
| OtherFile
| Directory.

(** [listdir d] is [None] when [d] is not a directory that can be listed;
    [content p] is [None] when nothing is at path [p]. *)
Record filesystem : Type := {
  listdir : string -> option (list string);
  content : string -> option file
}.

Definition ishidden (name : string) : bool :=
  match name with
  | String c _ => Ascii.eqb c "."%char
  | EmptyString => false
  end.

Module glob.

(** [glob.glob(dirname + "/*")]: the entries of [dirname] that are not
    hidden, in the order the directory lists them, each joined to
    [dirname]; the empty list when the directory cannot be listed. *)
Definition glob_star (fs : filesystem) (dirname : string) : list string :=
  match listdir fs dirname with
  | None => []
  | Some names =>
      map (fun name => dirname ++ "/" ++ name)%string
          (List.filter (fun name => negb (ishidden name)) names)
  end.

End glob.

(** [Image.open(file)] itself: it reads the header only, so it knows the
    size and the mode and refuses an image over the pixel limit, but it does
    not notice data that is cut short.  The answer is the image as the
    header describes it, and whether its data is whole. *)
Definition open_file (fs : filesystem) (path : string) : result (PIL.Image * bool) :=
  match content fs path with
  | None => Raise FileNotFoundError
  | Some Directory => Raise IsADirectoryError
  | Some OtherFile => Raise UnidentifiedImageError
  | Some (ImageFile im) =>
      if PIL.decompression_bomb (PIL.size im) then Raise DecompressionBombError
      else Ok (im, true)
  | Some (TruncatedImage im) =>
      if PIL.decompression_bomb (PIL.size im) then Raise DecompressionBombError
      else Ok (im, false)
  end.

(** The decoding of the pixel data, which the library puts off until the
    image is first used: [OSError] when the data is cut short. *)
Definition load (opened : PIL.Image * bool) : result PIL.Image :=
  let '(im, whole) := opened in
  if whole then Ok im else Raise OSError.

(** [Image.open(file)] and the decoding that the first use of the image
    forces.  In [image_file_to_tensor] that use is the call of [crop], and
    between the two calls only the size is read, so the preprocessor raises
    the same exception as if the file were decoded when it is opened. *)
Definition Image_open (fs : filesystem) (path : string) : result PIL.Image :=
  bind (open_file fs path) load.

(** ** The dataset indexer *)

(** <<
    animals = {"dog": [], "cat": [], "elephant": [], "cow": []}
    for animal in animals:
        animals[animal] = glob.glob(f"data/images/{animal}/*")
    return animals
>> *)
Definition load_dataset_files (fs : filesystem) : dict (list string) :=
  let animals : dict (list string) :=
    [("dog", []); ("cat", []); ("elephant", []); ("cow", [])]%string in
  fold_left
    (fun animals animal =>
       dict_setitem animals animal
         (glob.glob_star fs ("data/images/" ++ animal)%string))
    (keys animals) animals.

(** ** Array arithmetic *)

(** The element type of the arrays and of the loss, with the operations the
    notebook applies to it.  [of_int] converts an integer (a pixel value, a
    Python [int] operand), [of_decimal] reads a literal such as [0.485]. *)
Class Arith (F : Type) : Type := {
  of_int : Z -> F;
  of_decimal : Q -> F;
  add : F -> F -> F;
  sub : F -> F -> F;
  div : F -> F -> F
}.

(** ** numpy arrays *)

Module np.
Section Arrays.
Context {F : Type} `{Arith F}.

(** An array: its shape and the item at each index tuple. *)
Record ndarray : Type := {
  shape : list Z;
  item : list Z -> F
}.

(** [np.array(image, dtype=np.float32)]: (height, width) for an image of
    one band, (height, width, bands) otherwise. *)
Definition array (im : PIL.Image) : ndarray :=
  let '(width, height) := PIL.size im in
  if PIL.bands im =? 1 then
    {| shape := [height; width];
       item := fun idx => of_int (PIL.getpixel im (nth 1 idx 0) (nth 0 idx 0) 0) |}
  else
    {| shape := [height; width; PIL.bands im];
       item := fun idx =>
                 of_int (PIL.getpixel im (nth 1 idx 0) (nth 0 idx 0) (nth 2 idx 0)) |}.

(** The position of axis [d] in [axes]. *)
Fixpoint axis_position (d : nat) (axes : list nat) : nat :=
  match axes with
  | [] => O
  | a :: axes' => if Nat.eqb a d then O else S (axis_position d axes')
  end.

Definition is_permutation (axes : list nat) : bool :=
  forallb (fun d => existsb (Nat.eqb d) axes) (seq 0 (List.length axes)).

(** [np.transpose(a, axes)]: axis [i] of the result is axis [axes[i]] of
    [a]; [ValueError] when [axes] is not a permutation of the axes of [a]. *)
Definition transpose (a : ndarray) (axes : list nat) : result ndarray :=
  if Nat.eqb (List.length axes) (List.length (shape a)) && is_permutation axes then
    Ok {| shape := map (fun ax => nth ax (shape a) 0) axes;
          item := fun idx =>
                    item a (map (fun d => nth (axis_position d axes) idx 0)
                                (seq 0 (List.length axes))) |}
  else Raise ValueError.

(** [a / x] and [a - x] for a scalar [x] *)
Definition true_divide (a : ndarray) (x : F) : ndarray :=
  {| shape := shape a; item := fun idx => div (item a idx) x |}.

Definition subtract (a : ndarray) (x : F) : ndarray :=
  {| shape := shape a; item := fun idx => sub (item a idx) x |}.

(** The place of index [k] on an axis of length [n], or [IndexError]. *)
Definition axis_index (n k : Z) : result Z :=
  let j := if k <? 0 then k + n else k in
  if (0 <=? j) && (j <? n) then Ok j else Raise IndexError.

(** [a[k]] *)
Definition getitem (a : ndarray) (k : Z) : result ndarray :=
  match shape a with
  | [] => Raise IndexError
  | n :: sh =>
      (j <- axis_index n k ;;
       Ok {| shape := sh; item := fun idx => item a (j :: idx) |})%result
  end.

Definition shape_eqb (s1 s2 : list Z) : bool :=
  Nat.eqb (List.length s1) (List.length s2)
  && forallb (fun p => fst p =? snd p) (combine s1 s2).

(** [a[k] = v] for a value of the shape of [a[k]], the one assignment the
    notebook makes; a value of another shape is answered with
    [ValueError], broadcasting is not modelled. *)
Definition setitem (a : ndarray) (k : Z) (v : ndarray) : result ndarray :=
  match shape a with
  | [] => Raise IndexError
  | n :: sh =>
      (j <- axis_index n k ;;
       if shape_eqb (shape v) sh then
         Ok {| shape := shape a;
               item := fun idx =>
                         match idx with
                         | i :: idx' => if i =? j then item v idx' else item a idx
                         | [] => item a idx
                         end |}
       else Raise ValueError)%result
  end.

(** [np.stack(arrays)]: [ValueError] for an empty list and for arrays of
    different shapes. *)
Definition stack (arrays : list ndarray) : result ndarray :=
  match arrays with
  | [] => Raise ValueError
  | a0 :: _ =>
      if forallb (fun a => shape_eqb (shape a) (shape a0)) arrays then
        Ok {| shape := Z.of_nat (List.length arrays) :: shape a0;
              item := fun idx =>
                        match idx with
                        | i :: idx' => item (nth (Z.to_nat i) arrays a0) idx'
                        | [] => item a0 []
                        end |}
      else Raise ValueError
  end.

End Arrays.
Arguments ndarray F : clear implicits.
End np.

(** ** The image preprocessor *)

Section Preprocessor.
Context {F : Type} `{Arith F}.
Variable resample : PIL.filter.
Variable fs : filesystem.

(** Lines 86 to 97: the crop to a centred square and the resize. *)
Definition crop_and_resize (image : PIL.Image) : PIL.Image :=
  let '(width, height) := PIL.size image in
  PIL.resize resample (PIL.crop image (crop_box width height)) (224, 224).

(** One channel of lines 101 to 103:
    [pix[c] = (pix[c] - mean) / std]. *)
Definition normalize_channel (pix : np.ndarray F) (c : Z) (mean std : Q)
  : result (np.ndarray F) :=
  (row <- np.getitem pix c ;;
   np.setitem pix c
     (np.true_divide (np.subtract row (of_decimal mean)) (of_decimal std)))%result.

(** Lines 99 to 104: from the resized image to the tensor. *)
Definition image_to_tensor (image : PIL.Image) : result (np.ndarray F) :=
  (pix <- np.transpose (np.array image) [2; 0; 1]%nat ;;
   let pix := np.true_divide pix (of_decimal 255) in
   pix <- normalize_channel pix 0 (485 # 1000) (229 # 1000) ;;
   pix <- normalize_channel pix 1 (456 # 1000) (224 # 1000) ;;
   pix <- normalize_channel pix 2 (406 # 1000) (225 # 1000) ;;
   Ok pix)%result.

Definition image_file_to_tensor (file : string) : result (np.ndarray F) :=
  (image <- Image_open fs file ;;
   image_to_tensor (crop_and_resize image))%result.

End Preprocessor.

(** ** Training metadata *)

Definition label_to_id_map : dict Z :=
  [("dog", 0); ("cat", 1); ("elephant", 2); ("cow", 3)]%string.

Definition num_samples_per_class : Z := 20.
Definition num_epochs : Z := 5.

(** ** The training runtime *)

(** The part of [onnxruntime.training.api] the loop drives, as an interface:
    the checkpoint state, module and optimizer are one opaque [state], and
    every call may raise. *)
Record Runtime (F : Type) : Type := {
  state : Type;
  (** [model.train()] *)
  train : state -> result state;
  (** [model([batch, labels])[0]]: the training loss, gradients left in the
      state *)
  forward : state -> np.ndarray F -> list Z -> result (F * state);
  (** [optimizer.step()] *)
  step : state -> result state;
  (** [model.lazy_reset_grad()] *)
  lazy_reset_grad : state -> result state
}.
Arguments state {F} _.
Arguments train {F} _ _.
Arguments forward {F} _ _ _ _.
Arguments step {F} _ _.
Arguments lazy_reset_grad {F} _ _.

(** What a run does that can be seen from outside: a training step handed
    [batch] and [labels] to the module and got [loss] back, or a line
    "Epoch [epoch] Loss [loss]" was printed. *)
Inductive event (F : Type) : Type :=
| Step (batch : np.ndarray F) (labels : list Z) (loss : F)
| Print (epoch : Z) (loss : F).
Arguments Step {F} batch labels loss.
Arguments Print {F} epoch loss.

Section Training.
Context {F : Type} `{Arith F}.
Variable resample : PIL.filter.
Variable fs : filesystem.
Variable R : Runtime F.

(** The runtime's state and the events so far; both survive an exception. *)
Record world : Type := {
  rt : state R;
  log : list (event F)
}.

Definition M (A : Type) : Type := world -> result A * world.

Definition ret {A : Type} (a : A) : M A := fun w => (Ok a, w).

Definition bindM {A B : Type} (m : M A) (k : A -> M B) : M B :=
  fun w =>
    match m w with
    | (Ok a, w') => k a w'
    | (Raise e, w') => (Raise e, w')
    end.

Definition lift {A : Type} (r : result A) : M A := fun w => (r, w).

(** A call of the runtime that returns nothing. *)
Definition external (op : state R -> result (state R)) : M unit :=
  fun w =>
    match op (rt w) with
    | Ok s => (Ok tt, {| rt := s; log := log w |})
    | Raise e => (Raise e, w)
    end.

Definition call_model (batch : np.ndarray F) (labels : list Z) : M F :=
  fun w =>
    match forward R (rt w) batch labels with
    | Ok (loss, s) => (Ok loss, {| rt := s; log := log w ++ [Step batch labels loss] |})
    | Raise e => (Raise e, w)
    end.

Definition print (epoch : Z) (loss : F) : M unit :=
  fun w => (Ok tt, {| rt := rt w; log := log w ++ [Print epoch loss] |}).

(** [for a in l: s = body(s, a)] *)
Fixpoint for_result {A S : Type} (l : list A) (body : S -> A -> result S) (s : S)
  : result S :=
  match l with
  | [] => Ok s
  | a :: l' => bind (body s a) (for_result l' body)
  end.

Fixpoint for_M {A S : Type} (l : list A) (body : S -> A -> M S) (s : S) : M S :=
  match l with
  | [] => ret s
  | a :: l' => bindM (body s a) (for_M l' body)
  end.

(** Lines 182 to 186:
<<
    batch = []
    labels = []
    for animal in animals:
        batch.append(image_file_to_tensor(animals[animal][index]))
        labels.append(label_to_id_map[animal])
>> *)
Definition build_batch (animals : dict (list string)) (index : Z)
  : result (list (np.ndarray F) * list Z) :=
  for_result (keys animals)
    (fun '(batch, labels) animal =>
       files <- dict_getitem animals animal ;;
       file <- list_getitem files index ;;
       tensor <- image_file_to_tensor resample fs file ;;
       id <- dict_getitem label_to_id_map animal ;;
       Ok (batch ++ [tensor], labels ++ [id]))%result
    ([], []).

(** Lines 182 to 195, one pass of the inner loop; [loss] is the
    accumulator. *)
Definition train_step (animals : dict (list string)) (loss : F) (index : Z) : M F :=
  bindM (lift (build_batch animals index)) (fun '(batch, labels) =>
  bindM (lift (np.stack batch)) (fun batch =>
  bindM (call_model batch labels) (fun l =>
  bindM (external (step R)) (fun _ =>
  bindM (external (lazy_reset_grad R)) (fun _ =>
  ret (add loss l)))))).

(** Lines 179 to 197, one pass of the outer loop. *)
Definition train_epoch (animals : dict (list string)) (_ : unit) (epoch : Z) : M unit :=
  bindM (external (train R)) (fun _ =>
  bindM (for_M (range num_samples_per_class) (train_step animals) (of_int 0))
    (fun loss =>
  print (epoch + 1) (div loss (of_int num_samples_per_class)))).

Definition training_loop (animals : dict (list string)) : M unit :=
  for_M (range num_epochs) (train_epoch animals) tt.

(** The notebook up to the end of the training loop, from the runtime's
    initial state. *)
Definition run (s0 : state R) : result unit * world :=
  training_loop (load_dataset_files fs) {| rt := s0; log := [] |}.

End Training.
Arguments rt {F R} _.
Arguments log {F R} _.

(** ** The display of the prediction *)

Section Softmax.
Context {F : Type} `{Arith F}.
(** [np.exp] on one element, and the product of two elements. *)
Variable exp : F -> F.
Variable mul : F -> F -> F.

(** [np.exp(logits)/np.exp(logits).sum()], on the logits laid out flat.  The
    sum runs over all the elements, from 0 and in order, which is how numpy
    adds up an array as short as the four scores of the model. *)
Definition softmax (logits : list F) : list F :=
  map (fun e => div e (fold_left add (map exp logits) (of_int 0))) (map exp logits).

(** Line 230: [probabilities = softmax(logits) * 100]. *)
Definition probabilities (logits : list F) : list F :=
  map (fun p => mul p (of_int 100)) (softmax logits).

End Softmax.

(** ** Two arithmetics *)

(** Exact rational arithmetic. *)
#[export] Instance Q_arith : Arith Q := {|
  of_int := inject_Z;
  of_decimal := fun q => q;
  add := Qplus;
  sub := Qminus;
  div := Qdiv
|}.

(** IEEE 754 binary32, the [np.float32] of the preprocessor: 24 bits of
    precision, round to nearest even. *)
Module binary32.

Definition prec : Z := 24.
Definition emax : Z := 128.

Definition of_Z (z : Z) : spec_float := binary_normalize prec emax z 0 false.

(** A Python float is a binary64: the literal is rounded to 53 bits first. *)
Definition binary64_of_Q (q : Q) : spec_float :=
  SFdiv 53 1024 (binary_normalize 53 1024 (Qnum q) 0 false)
                (binary_normalize 53 1024 (Zpos (Qden q)) 0 false).

Definition of_binary64 (x : spec_float) : spec_float :=
  match x with
  | S754_finite s m e => binary_normalize prec emax (cond_Zopp s (Zpos m)) e s
  | _ => x
  end.

Definition of_Q (q : Q) : spec_float := of_binary64 (binary64_of_Q q).

(** The rational a finite float stands for (0 for the others). *)
Definition to_Q (x : spec_float) : Q :=
  match x with
  | S754_finite s m e =>
      let v := cond_Zopp s (Zpos m) in
      if 0 <=? e then inject_Z (v * 2 ^ e) else v # (2 ^ Z.to_pos (- e))
  | _ => 0%Q
  end.

Definition is_finite (x : spec_float) : bool :=
  match x with
  | S754_finite _ _ _ | S754_zero _ => true
  | _ => false
  end.

Definition mul : spec_float -> spec_float -> spec_float := SFmul prec emax.

End binary32.

#[export] Instance binary32_arith : Arith spec_float := {|
  of_int := binary32.of_Z;
  of_decimal := binary32.of_Q;
  add := SFadd binary32.prec binary32.emax;
  sub := SFsub binary32.prec binary32.emax;
  div := SFdiv binary32.prec binary32.emax
|}.

(** ** Sample data *)

Module Examples.

(** An image of one colour. *)
Definition solid (width height : Z) (colour : list Z) : PIL.Image :=
  {| PIL.size := (width, height);
     PIL.bands := Z.of_nat (List.length colour);
     PIL.getpixel := fun _ _ c => nth (Z.to_nat c) colour 0 |}.

Definition photo : PIL.Image := solid 640 480 [200; 120; 40].
Definition portrait : PIL.Image := solid 300 400 [10; 20; 30].
Definition rgba_png : PIL.Image := solid 300 200 [200; 120; 40; 255].

(** A file system from a list of directories, each with its entries. *)
Definition mkfs (dirs : list (string * list (string * file))) : filesystem :=
  {| listdir := fun d =>
       match find (fun p => String.eqb (fst p) d) dirs with
       | Some (_, entries) => Some (map fst entries)
       | None => None
       end;
     content := fun path =>
       match
         find (fun p => String.eqb (fst p) path)
           (flat_map
              (fun '(d, entries) =>
                 map (fun '(name, f) => ((d ++ "/" ++ name)%string, f)) entries)
              dirs)
       with
       | Some (_, f) => Some f
       | None => None
       end |}.

Definition pictures (names : list string) : list (string * file) :=
  map (fun name => (name, ImageFile photo)) names.


(** One picture of each class; the dog's has an alpha band. *)
Definition one_each_fs : filesystem :=
  mkfs [("data/images/dog", [("rgba.png", ImageFile rgba_png)]);
        ("data/images/cat", pictures ["c.jpg"]);
        ("data/images/elephant", [("e.jpg", ImageFile portrait)]);
        ("data/images/cow", pictures ["d.jpg"])]%string.

(** Two dogs, one cat, two elephants and three cows. *)
Definition short_fs : filesystem :=
  mkfs [("data/images/dog", pictures ["a.jpg"; "b.jpg"]);
        ("data/images/cat", pictures ["c.jpg"]);
        ("data/images/elephant", pictures ["g.jpg"; "h.jpg"]);
        ("data/images/cow", pictures ["d.jpg"; "e.jpg"; "f.jpg"])]%string.

Definition numbered (n : nat) : string :=
  ("img" ++ NilEmpty.string_of_uint (Nat.to_uint n) ++ ".jpg")%string.

(** Twenty pictures of each class, and a hidden file among the dogs. *)
Definition full_fs : filesystem :=
  mkfs [("data/images/dog", (".DS_Store"%string, OtherFile) :: pictures (map numbered (seq 0 20)));
        ("data/images/cat", pictures (map numbered (seq 0 20)));
        ("data/images/elephant", pictures (map numbered (seq 0 20)));
        ("data/images/cow", pictures (map numbered (seq 0 20)))]%string.

(** A runtime that never raises: its state counts the steps taken and the
    loss of a step is that count. *)
Definition counting_runtime : Runtime Q :=
  {| state := Z;
     train := fun s => Ok s;
     forward := fun s _ _ => Ok (inject_Z s, s);
     step := fun s => Ok (s + 1);
     lazy_reset_grad := fun s => Ok s |}.

End Examples.

(** ** Reference definitions for the properties *)

Definition result_map {A B : Type} (f : A -> B) (r : result A) : result B :=
  match r with
  | Ok a => Ok (f a)
  | Raise e => Raise e
  end.

(** The literal constants of the normalization, by channel. *)
Definition channel_mean (c : Z) : Q :=
  if c =? 0 then 485 # 1000 else if c =? 1 then 456 # 1000 else 406 # 1000.

Definition channel_std (c : Z) : Q :=
  if c =? 0 then 229 # 1000 else if c =? 1 then 224 # 1000 else 225 # 1000.

(** [(v / 255 - mean_c) / std_c] for a pixel value [v] of channel [c]. *)
Definition normalized {F : Type} `{Arith F} (c v : Z) : F :=
  div (sub (div (of_int v) (of_decimal 255)) (of_decimal (channel_mean c)))
      (of_decimal (channel_std c)).

(** [image_file_to_tensor(animals[animal][index])] *)
Definition class_tensor {F : Type} `{Arith F} (resample : PIL.filter) (fs : filesystem)
    (animals : dict (list string)) (animal : string) (index : Z)
  : result (np.ndarray F) :=
  (files <- dict_getitem animals animal ;;
   file <- list_getitem files index ;;
   image_file_to_tensor resample fs file)%result.

Definition is_step {F : Type} (ev : event F) : bool :=
  match ev with
  | Step _ _ _ => true
  | Print _ _ => false
  end.

(** The losses of the training steps among the events, in order. *)
Definition losses {F : Type} (evs : list (event F)) : list F :=
  flat_map (fun ev => match ev with Step _ _ loss => [loss] | Print _ _ => [] end) evs.

(** The sum of the losses, from 0 and in order, over [num_samples_per_class]. *)
Definition mean_loss {F : Type} `{Arith F} (ls : list F) : F :=
  div (fold_left add ls (of_int 0)) (of_int num_samples_per_class).

(** The events of a whole epoch: its steps, then the one line printed. *)
Definition epoch_events {F : Type} `{Arith F} (epoch : Z) (steps : list (event F))
  : list (event F) :=
  steps ++ [Print (epoch + 1) (mean_loss (losses steps))].

(** Every file of the dataset opens as an image of three bands. *)
Definition all_rgb (fs : filesystem) (animals : dict (list string)) : bool :=
  forallb
    (fun '(_, files) =>
       forallb
         (fun path =>
            match Image_open fs path with
            | Ok im => PIL.bands im =? 3
            | Raise _ => false
            end)
         files)
    animals.

(** The length of the shortest file list. *)
Definition fewest_samples (animals : dict (list string)) : Z :=
  match map (fun p => Z.of_nat (List.length (snd p))) animals with
  | [] => 0
  | n :: ns => fold_left Z.min ns n
  end.

(** The lines printed, as (epoch, loss), in order. *)
Definition printed {F : Type} (evs : list (event F)) : list (Z * F) :=
  flat_map
    (fun ev => match ev with Print epoch loss => [(epoch, loss)] | Step _ _ _ => [] end)
    evs.

(** How far the binary32 value of channel [c] for the pixel value [v] is from
    the exact one. *)
Definition binary32_error (c v : Z) : Q :=
  Qabs (binary32.to_Q (normalized (F := spec_float) c v) - normalized (F := Q) c v).

(** A step event whose batch and labels the loop built for some sample
    index: [labels] as collected, [batch] the stack of the tensors. *)
Definition step_built {F : Type} `{Arith F} (resample : PIL.filter) (fs : filesystem)
    (animals : dict (list string)) (ev : event F) : Prop :=
  match ev with
  | Step batch labels _ =>
      exists index tensors,
        In index (range num_samples_per_class) /\
        build_batch resample fs animals index = Ok (tensors, labels) /\
        np.stack tensors = Ok batch
  | Print _ _ => True
  end.

(** ** The input of [predict] *)

(** Line 229, the array handed to the inference session:
    [np.stack([image_file_to_tensor(test_file)])]. *)
Definition predict_input {F : Type} `{Arith F} (resample : PIL.filter) (fs : filesystem)
    (test_file : string) : result (np.ndarray F) :=
  (tensor <- image_file_to_tensor resample fs test_file ;;
   np.stack [tensor])%result.

(** ** More sample data *)

Module Samples.

Definition grey : PIL.Image := Examples.solid 100 80 [77].
Definition grey_alpha : PIL.Image := Examples.solid 100 80 [77; 255].

(** A dog directory with a hidden file, a grey picture, a grey picture with
    an alpha band, a text file, a subdirectory and a picture with an alpha
    band. *)
Definition odd_fs : filesystem :=
  Examples.mkfs
    [("data/images/dog",
      [(".hidden.jpg", ImageFile Examples.photo);
       ("grey.png", ImageFile grey);
       ("la.png", ImageFile grey_alpha);
       ("notes.txt", OtherFile);
       ("more", Directory);
       ("rgba.png", ImageFile Examples.rgba_png)])]%string.

(** Test pictures that do not load: one whose data is cut short and one of
    20000 x 20000 pixels. *)
Definition broken_fs : filesystem :=
  Examples.mkfs
    [("inference_artifacts",
      [("cut.jpg", TruncatedImage Examples.photo);
       ("huge.png", ImageFile (Examples.solid 20000 20000 [1; 2; 3]))])]%string.

(** A stand-in for [np.exp] on binary32 with the two values of the
    exponential that the overflow example needs: 1 at 0, and +inf from 89 on,
    where e^x is above the largest binary32 number.  It also goes to 0 where
    e^x is below the smallest one; in between it is constant. *)
Definition coarse_exp (x : spec_float) : spec_float :=
  if SFleb (binary32.of_Z 89) x then S754_infinity false
  else if SFleb x (binary32.of_Z (-104)) then S754_zero false
  else binary32.of_Z 1.

(** A runtime that takes batches of shape (4, 3, 224, 224) only, as a module
    built for pictures of three channels does. *)
Definition strict_runtime : Runtime Q :=
  {| state := Z;
     train := fun s => Ok s;
     forward := fun s batch _ =>
       if np.shape_eqb (np.shape batch) [4; 3; 224; 224]
       then Ok (inject_Z s, s) else Raise RuntimeError;
     step := fun s => Ok (s + 1);
     lazy_reset_grad := fun s => Ok s |}.

(** Twenty pictures of each class, then a text file among the cats. *)
Definition full_and_more_fs : filesystem :=
  Examples.mkfs
    [("data/images/dog", Examples.pictures (map Examples.numbered (seq 0 20)));
     ("data/images/cat",
      List.app (Examples.pictures (map Examples.numbered (seq 0 20)))
               [("readme.txt", OtherFile)]);
     ("data/images/elephant", Examples.pictures (map Examples.numbered (seq 0 21)));
     ("data/images/cow", Examples.pictures (map Examples.numbered (seq 0 20)))]%string.

End Samples.

(** ** More reference definitions *)

(** What the preprocessor answers for a file, read off the file alone: the
    exception, or the shape of the tensor. *)
Definition expected_outcome (fs : filesystem) (path : string) : result (list Z) :=
  match content fs path with
  | None => Raise FileNotFoundError
  | Some Directory => Raise IsADirectoryError
  | Some OtherFile => Raise UnidentifiedImageError
  | Some (TruncatedImage im) =>
      if PIL.decompression_bomb (PIL.size im) then Raise DecompressionBombError
      else Raise OSError
  | Some (ImageFile im) =>
      if PIL.decompression_bomb (PIL.size im) then Raise DecompressionBombError
      else if PIL.bands im =? 1 then Raise ValueError
      else if PIL.bands im <? 3 then Raise IndexError
      else Ok [PIL.bands im; 224; 224]
  end.

(** The step event of sample index [index]: the module got the stack of the
    batch built for [index], and its labels. *)
Definition step_at {F : Type} `{Arith F} (resample : PIL.filter) (fs : filesystem)
    (animals : dict (list string)) (index : Z) (ev : event F) : Prop :=
  match ev with
  | Step batch labels _ =>
      exists tensors,
        build_batch resample fs animals index = Ok (tensors, labels) /\
        np.stack tensors = Ok batch
  | Print _ _ => False
  end.

(** The sample indices of a whole run, step by step: 0 to 19, five times. *)
Definition schedule : list Z :=
  List.concat (repeat (range num_samples_per_class) (Z.to_nat num_epochs)).

Definition in_class_list (animal : string) : bool :=
  existsb (String.eqb animal) ["dog"; "cat"; "elephant"; "cow"]%string.

(** ** The epochs, step by step *)

Section EpochReference.
Context {F : Type} `{Arith F}.
Variable resample : PIL.filter.
Variable fs : filesystem.
Variable R : Runtime F.
Variable animals : dict (list string).

(** One training step from the runtime state [s]: build the batch of the
    sample index, run the module forward and backward on it, which returns
    the loss, take the optimizer step, reset the gradients. *)
Definition step_outcome (s : state R) (index : Z) : result (F * state R) :=
  ('(tensors, labels) <- build_batch resample fs animals index ;;
   batch <- np.stack tensors ;;
   '(loss, s1) <- forward R s batch labels ;;
   s2 <- step R s1 ;;
   s3 <- lazy_reset_grad R s2 ;;
   Ok (loss, s3))%result.

(** The losses of the steps of [indices], one after the other. *)
Fixpoint step_losses (s : state R) (indices : list Z) : result (list F * state R) :=
  match indices with
  | [] => Ok ([], s)
  | index :: indices' =>
      ('(loss, s1) <- step_outcome s index ;;
       '(ls, s2) <- step_losses s1 indices' ;;
       Ok (loss :: ls, s2))%result
  end.

(** One epoch: training mode, the [num_samples_per_class] steps, and the sum
    of their losses over [num_samples_per_class]. *)
Definition epoch_mean (s : state R) : result (F * state R) :=
  (s1 <- train R s ;;
   '(ls, s2) <- step_losses s1 (range num_samples_per_class) ;;
   Ok (mean_loss ls, s2))%result.

(** The epochs one after the other: what is reported, one (epoch + 1, mean
    loss) for each epoch that completes, and how the run ends. *)
Fixpoint reports (s : state R) (epochs : list Z) : list (Z * F) * result unit :=
  match epochs with
  | [] => ([], Ok tt)
  | epoch :: epochs' =>
      match epoch_mean s with
      | Ok (mean, s') =>
          let '(lines, outcome) := reports s' epochs' in
          ((epoch + 1, mean) :: lines, outcome)
      | Raise e => ([], Raise e)
      end
  end.


End EpochReference.




(** The first [num_samples_per_class] files of each class. *)
Definition first_samples (animals : dict (list string)) : dict (list string) :=
  map (fun p => (fst p, firstn (Z.to_nat num_samples_per_class) (snd p))) animals.

(** From every state in [Inv] the runtime takes every call the loop makes on
    batches of three-channel pictures, and stays in [Inv]. *)
Definition runtime_accepts {F : Type} (R : Runtime F) (Inv : state R -> Prop) : Prop :=
  (forall s, Inv s ->
     match train R s with Ok s' => Inv s' | Raise _ => False end) /\
  (forall s batch labels, Inv s ->
     np.shape batch = [4; 3; 224; 224] -> labels = [0; 1; 2; 3] ->
     match forward R s batch labels with Ok (_, s') => Inv s' | Raise _ => False end) /\
  (forall s, Inv s ->
     match step R s with Ok s' => Inv s' | Raise _ => False end) /\
  (forall s, Inv s ->
     match lazy_reset_grad R s with Ok s' => Inv s' | Raise _ => False end).

(** * Properties *)

(** ** The crop box *)

Lemma half_sum_diff (a b : Z) : (a + b) / 2 = (a - b) / 2 + b.
Proof.
  replace (a + b) with (a - b + b * 2) by lia.
  rewrite Z.div_add by lia. reflexivity.
Qed.

Lemma crop_box_wide (width height : Z) :
  width > height ->
  crop_box width height =
    ((width - height) / 2, 0, (width - height) / 2 + height, height).
Proof.
  intros Hgt. unfold crop_box.
  destruct (width >? height) eqn:E; [| lia].
  cbv zeta. rewrite half_sum_diff. reflexivity.
Qed.

Lemma crop_box_tall (width height : Z) :
  width <= height ->
  crop_box width height =
    (0, (height - width) / 2, width, (height - width) / 2 + width).
Proof.
  intros Hle. unfold crop_box.
  destruct (width >? height) eqn:E; [lia |].
  cbv zeta. rewrite half_sum_diff. reflexivity.
Qed.

(** Floor and truncating division agree on what the crop divides. *)
Lemma quot_div_nonneg (a : Z) : 0 <= a -> Z.quot a 2 = a / 2.
Proof. intros Ha. apply Z.quot_div_nonneg; lia. Qed.

(** C1, as stated, fails on a 5 x 2 image: the crop keeps columns 1 and 2,
    so it removes one column on the left and two on the right, while
    (5 - 2) / 2 truncates to 1. *)
Lemma crop_margins_5_by_2 :
  crop_box 5 2 = (1, 0, 3, 2) /\
  left_margin 5 2 = 1 /\
  right_margin 5 2 = 2 /\
  Z.quot (5 - 2) 2 = 1 /\
  (right_margin 5 2 =? Z.quot (5 - 2) 2) = false.
Proof. repeat split. Qed.

(** C1, amended: when width > height the crop removes (width - height) / 2
    columns on the left (truncating division) and the other
    (width - height) - (width - height) / 2 columns on the right, which is
    the same number when the difference is even and one more when it is
    odd; when height >= width the same holds for the rows above and below. *)
Theorem crop_margins (width height : Z) :
  (width > height ->
     left_margin width height = Z.quot (width - height) 2 /\
     right_margin width height = Z.quot (width - height) 2 + (width - height) mod 2 /\
     top_margin width height = 0 /\ bottom_margin width height = 0) /\
  (height >= width ->
     top_margin width height = Z.quot (height - width) 2 /\
     bottom_margin width height = Z.quot (height - width) 2 + (height - width) mod 2 /\
     left_margin width height = 0 /\ right_margin width height = 0).
Proof.
  unfold left_margin, right_margin, top_margin, bottom_margin. split; intros Hcmp.
  - rewrite crop_box_wide by lia. cbn [box_left box_right box_top box_bottom].
    rewrite quot_div_nonneg by lia.
    pose proof (Z.div_mod (width - height) 2). lia.
  - rewrite crop_box_tall by lia. cbn [box_left box_right box_top box_bottom].
    rewrite quot_div_nonneg by lia.
    pose proof (Z.div_mod (height - width) 2). lia.
Qed.

Lemma crop_margins_witness :
  (left_margin 640 480 = 80 /\ right_margin 640 480 = 80) /\
  (top_margin 300 401 = 50 /\ bottom_margin 300 401 = 51).
Proof.
  split.
  - destruct (crop_margins 640 480) as [Hwide _].
    destruct Hwide as (Hl & Hr & _); [lia |].
    split; [exact Hl | exact Hr].
  - destruct (crop_margins 300 401) as [_ Htall].
    destruct Htall as (Ht & Hb & _); [lia |].
    split; [exact Ht | exact Hb].
Defined.

(** C2: the region cropped out of an image of positive width and height is
    a square whose side is the smaller of the two. *)
Theorem crop_is_square (im : PIL.Image) (width height : Z) :
  PIL.size im = (width, height) ->
  0 < width -> 0 < height ->
  PIL.size (PIL.crop im (crop_box width height))
    = (Z.min width height, Z.min width height).
Proof.
  intros _ Hw Hh. destruct (Z_gt_le_dec width height) as [Hgt | Hle].
  - rewrite crop_box_wide by assumption. cbn [PIL.crop PIL.size].
    f_equal; lia.
  - rewrite crop_box_tall by assumption. cbn [PIL.crop PIL.size].
    f_equal; lia.
Qed.

Lemma crop_is_square_witness :
  PIL.size (PIL.crop Examples.photo (crop_box 640 480)) = (480, 480).
Proof.
  exact (crop_is_square Examples.photo 640 480 eq_refl eq_refl eq_refl).
Defined.

(** C3: on a square image the crop box is the whole image, and the cropped
    image has the size and the pixels of the original. *)
Theorem crop_square_noop (im : PIL.Image) (width height : Z) :
  PIL.size im = (width, height) ->
  width = height ->
  crop_box width height = (0, 0, width, height) /\
  PIL.size (PIL.crop im (crop_box width height)) = PIL.size im /\
  forall x y c,
    PIL.getpixel (PIL.crop im (crop_box width height)) x y c = PIL.getpixel im x y c.
Proof.
  intros Hsize ->. rewrite crop_box_tall by lia.
  replace ((height - height) / 2) with 0 by (rewrite Z.sub_diag; reflexivity).
  cbn [PIL.crop PIL.size PIL.getpixel Z.add]. repeat split.
  - rewrite Hsize. f_equal; lia.
  - intros x y c. rewrite !Z.add_0_r. reflexivity.
Qed.

Lemma crop_square_noop_witness :
  crop_box 224 224 = (0, 0, 224, 224).
Proof.
  exact (proj1 (crop_square_noop (Examples.solid 224 224 [1; 2; 3]) 224 224
                  eq_refl eq_refl)).
Defined.

(** C10: the crop box of an image of positive width and height lies inside
    the image. *)
Theorem crop_box_in_bounds (width height : Z) :
  0 < width -> 0 < height ->
  let box := crop_box width height in
  0 <= box_left box <= box_right box /\ box_right box <= width /\
  0 <= box_top box <= box_bottom box /\ box_bottom box <= height.
Proof.
  intros Hw Hh. cbv zeta. destruct (Z_gt_le_dec width height) as [Hgt | Hle].
  - rewrite crop_box_wide by assumption. cbn [box_left box_right box_top box_bottom].
    pose proof (Z.div_mod (width - height) 2).
    pose proof (Z.mod_pos_bound (width - height) 2). lia.
  - rewrite crop_box_tall by assumption. cbn [box_left box_right box_top box_bottom].
    pose proof (Z.div_mod (height - width) 2).
    pose proof (Z.mod_pos_bound (height - width) 2). lia.
Qed.

Lemma crop_box_in_bounds_witness :
  let box := crop_box 641 480 in
  0 <= box_left box <= box_right box /\ box_right box <= 641 /\
  0 <= box_top box <= box_bottom box /\ box_bottom box <= 480.
Proof.
  apply (crop_box_in_bounds 641 480); lia.
Defined.

(** ** Arrays *)

Section ArrayFacts.
Context {F : Type} `{Arith F}.

Lemma shape_eqb_refl (sh : list Z) : np.shape_eqb sh sh = true.
Proof.
  unfold np.shape_eqb. rewrite Nat.eqb_refl. cbn [andb].
  induction sh as [| n sh IH]; cbn; [reflexivity |].
  rewrite Z.eqb_refl. exact IH.
Qed.

Lemma shape_eqb_eq (s1 s2 : list Z) : np.shape_eqb s1 s2 = true -> s1 = s2.
Proof.
  unfold np.shape_eqb. revert s2.
  induction s1 as [| a s1 IH]; intros [| b s2]; cbn; try discriminate; auto.
  intros Hb. apply andb_prop in Hb. destruct Hb as [Hlen Hall].
  apply andb_prop in Hall. destruct Hall as [Hab Hall].
  apply Z.eqb_eq in Hab. subst b. f_equal. apply IH.
  rewrite Hlen, Hall. reflexivity.
Qed.

Lemma axis_index_in_range (n k : Z) : 0 <= k < n -> np.axis_index n k = Ok k.
Proof.
  intros Hk. unfold np.axis_index.
  destruct (k <? 0) eqn:E; [lia |].
  destruct (0 <=? k) eqn:E1; [| lia].
  destruct (k <? n) eqn:E2; [| lia]. reflexivity.
Qed.

Lemma axis_index_past_end (n k : Z) :
  0 <= k -> n <= k -> np.axis_index n k = Raise IndexError.
Proof.
  intros Hk Hn. unfold np.axis_index.
  destruct (k <? 0) eqn:E; [lia |].
  destruct (k <? n) eqn:E2; [lia |].
  rewrite andb_false_r. reflexivity.
Qed.

(** [pix[c] = (pix[c] - mean) / std] on an array that has a row [c]: the
    shape stays, row [c] is rewritten, the other rows are kept. *)
Lemma normalize_channel_ok (pix : np.ndarray F) (c : Z) (mean std : Q) (n : Z) (sh : list Z) :
  np.shape pix = n :: sh ->
  0 <= c < n ->
  exists pix',
    normalize_channel pix c mean std = Ok pix' /\
    np.shape pix' = n :: sh /\
    forall i idx,
      np.item pix' (i :: idx) =
        if i =? c
        then div (sub (np.item pix (c :: idx)) (of_decimal mean)) (of_decimal std)
        else np.item pix (i :: idx).
Proof.
  intros Hshape Hc. unfold normalize_channel, np.getitem, np.setitem.
  rewrite Hshape, axis_index_in_range by assumption.
  cbn [bind np.true_divide np.subtract np.shape].
  rewrite shape_eqb_refl. eexists. split; [reflexivity |].
  cbn [np.shape np.item]. split; [reflexivity |].
  intros i idx. reflexivity.
Qed.

Lemma normalize_channel_missing (pix : np.ndarray F) (c : Z) (mean std : Q) (n : Z) (sh : list Z) :
  np.shape pix = n :: sh ->
  0 <= c -> n <= c ->
  normalize_channel pix c mean std = Raise IndexError.
Proof.
  intros Hshape Hc Hn. unfold normalize_channel, np.getitem.
  rewrite Hshape, axis_index_past_end by assumption. reflexivity.
Qed.

End ArrayFacts.

(** ** The preprocessor *)

Section PreprocessorFacts.
Context {F : Type} `{Arith F}.
Variable resample : PIL.filter.
Variable fs : filesystem.

Lemma crop_and_resize_size (im : PIL.Image) :
  PIL.size (crop_and_resize resample im) = (224, 224).
Proof. unfold crop_and_resize. destruct (PIL.size im). reflexivity. Qed.

Lemma crop_and_resize_bands (im : PIL.Image) :
  PIL.bands (crop_and_resize resample im) = PIL.bands im.
Proof.
  unfold crop_and_resize. destruct (PIL.size im) as [w h].
  cbn [PIL.resize PIL.bands]. unfold PIL.crop.
  destruct (crop_box w h) as [[[x0 y0] x1] y1]. reflexivity.
Qed.

(** The transposed array of an image of several bands. *)
Lemma transpose_array (im : PIL.Image) (width height : Z) :
  PIL.size im = (width, height) ->
  PIL.bands im <> 1 ->
  exists pix : np.ndarray F,
    np.transpose (np.array im) [2; 0; 1]%nat = Ok pix /\
    np.shape pix = [PIL.bands im; height; width] /\
    forall c y x,
      np.item pix [c; y; x] = of_int (PIL.getpixel im x y c).
Proof.
  intros Hsize Hbands. unfold np.array. rewrite Hsize.
  destruct (PIL.bands im =? 1) eqn:E; [lia |].
  eexists. split; [reflexivity |]. split; reflexivity.
Qed.

Lemma transpose_array_one_band (im : PIL.Image) :
  PIL.bands im = 1 ->
  np.transpose (np.array (F := F) im) [2; 0; 1]%nat = Raise ValueError.
Proof.
  intros Hbands. unfold np.array. destruct (PIL.size im) as [w h].
  rewrite Hbands. reflexivity.
Qed.

(** Lines 99 to 104 on an image of at least three bands: a tensor of shape
    (bands, height, width) whose first three channels are normalized. *)
Lemma image_to_tensor_ok (im : PIL.Image) (width height : Z) :
  PIL.size im = (width, height) ->
  3 <= PIL.bands im ->
  exists t : np.ndarray F,
    image_to_tensor im = Ok t /\
    np.shape t = [PIL.bands im; height; width] /\
    forall c y x,
      0 <= c < 3 ->
      np.item t [c; y; x] = normalized c (PIL.getpixel im x y c).
Proof.
  intros Hsize Hbands. unfold image_to_tensor.
  destruct (transpose_array im width height Hsize) as (p & -> & Hsh & Hit); [lia |].
  cbn [bind].
  destruct (normalize_channel_ok (np.true_divide p (of_decimal 255)) 0
              (485 # 1000) (229 # 1000) (PIL.bands im) [height; width])
    as (p0 & -> & Hsh0 & Hit0); [exact Hsh | lia |].
  cbn [bind].
  destruct (normalize_channel_ok p0 1 (456 # 1000) (224 # 1000)
              (PIL.bands im) [height; width])
    as (p1 & -> & Hsh1 & Hit1); [exact Hsh0 | lia |].
  cbn [bind].
  destruct (normalize_channel_ok p1 2 (406 # 1000) (225 # 1000)
              (PIL.bands im) [height; width])
    as (p2 & -> & Hsh2 & Hit2); [exact Hsh1 | lia |].
  cbn [bind]. exists p2. split; [reflexivity |]. split; [exact Hsh2 |].
  intros c y x Hc. unfold normalized.
  assert (Hcases : c = 0 \/ c = 1 \/ c = 2) by lia.
  destruct Hcases as [-> | [-> | ->]];
    rewrite Hit2; cbn [Z.eqb Pos.eqb];
    rewrite Hit1; cbn [Z.eqb Pos.eqb];
    rewrite Hit0; cbn [Z.eqb Pos.eqb np.true_divide np.item];
    rewrite Hit; reflexivity.
Qed.

(** On any other image lines 99 to 104 raise. *)
Lemma image_to_tensor_raises (im : PIL.Image) :
  PIL.bands im < 3 ->
  exists e, image_to_tensor (F := F) im = Raise e.
Proof.
  intros Hbands. destruct (Z.eq_dec (PIL.bands im) 1) as [Hone | Hmany].
  - exists ValueError. unfold image_to_tensor.
    rewrite transpose_array_one_band by assumption. reflexivity.
  - exists IndexError. unfold image_to_tensor.
    destruct (PIL.size im) as [width height] eqn:Hsize.
    destruct (transpose_array im width height Hsize Hmany) as (p & -> & Hsh & _).
    cbn [bind].
    destruct (Z_le_gt_dec (PIL.bands im) 0) as [Hnone | Hsome].
    { rewrite (normalize_channel_missing _ 0 _ _ (PIL.bands im) [height; width]);
        [reflexivity | exact Hsh | lia | lia]. }
    destruct (normalize_channel_ok (np.true_divide p (of_decimal 255)) 0
                (485 # 1000) (229 # 1000) (PIL.bands im) [height; width])
      as (p0 & -> & Hsh0 & _); [exact Hsh | lia |].
    cbn [bind].
    destruct (normalize_channel_ok p0 1 (456 # 1000) (224 # 1000)
                (PIL.bands im) [height; width])
      as (p1 & -> & Hsh1 & _); [exact Hsh0 | lia |].
    cbn [bind].
    rewrite (normalize_channel_missing _ 2 _ _ (PIL.bands im) [height; width]);
      [reflexivity | exact Hsh1 | lia | lia].
Qed.

(** The shape of every tensor the preprocessor returns. *)
Lemma image_file_to_tensor_shape (path : string) (im : PIL.Image) (t : np.ndarray F) :
  Image_open fs path = Ok im ->
  image_file_to_tensor resample fs path = Ok t ->
  3 <= PIL.bands im /\ np.shape t = [PIL.bands im; 224; 224].
Proof.
  intros Hopen Ht. unfold image_file_to_tensor in Ht. rewrite Hopen in Ht.
  cbn [bind] in Ht.
  destruct (Z_lt_le_dec (PIL.bands (crop_and_resize resample im)) 3) as [Hlt | Hge].
  - destruct (image_to_tensor_raises _ Hlt) as [e He]. congruence.
  - destruct (image_to_tensor_ok _ 224 224 (crop_and_resize_size im) Hge)
      as (t' & Ht' & Hsh & _).
    rewrite crop_and_resize_bands in *. split; [exact Hge | congruence].
Qed.

(** An image of three bands of any size becomes a tensor of shape
    (3, 224, 224). *)
Lemma image_file_to_tensor_rgb (path : string) (im : PIL.Image) :
  Image_open fs path = Ok im ->
  PIL.bands im = 3 ->
  exists t : np.ndarray F,
    image_file_to_tensor resample fs path = Ok t /\ np.shape t = [3; 224; 224].
Proof.
  intros Hopen Hbands. unfold image_file_to_tensor. rewrite Hopen. cbn [bind].
  destruct (image_to_tensor_ok (crop_and_resize resample im) 224 224)
    as (t & Ht & Hsh & _).
  - apply crop_and_resize_size.
  - rewrite crop_and_resize_bands. lia.
  - exists t. split; [exact Ht |].
    rewrite Hsh, crop_and_resize_bands, Hbands. reflexivity.
Qed.

End PreprocessorFacts.

(** C4, at an image with an alpha band: the preprocessor succeeds on the
    300 x 200 RGBA picture and returns a tensor of shape (4, 224, 224), not
    (3, 224, 224). *)
Theorem rgba_tensor_shape {F : Type} `{Arith F} (resample : PIL.filter) :
  result_map np.shape
    (image_file_to_tensor resample Examples.one_each_fs "data/images/dog/rgba.png")
  = Ok [4; 224; 224].
Proof. reflexivity. Qed.

(** C5: when channel [c] of the resized image holds the one value [v], every
    value of channel [c] of the tensor is [(v / 255 - mean_c) / std_c], with
    the literal mean and standard deviation of the channel. *)
Theorem normalization_of_uniform_channel {F : Type} `{Arith F}
    (resample : PIL.filter) (fs : filesystem) (path : string) (im : PIL.Image)
    (c v : Z) :
  Image_open fs path = Ok im ->
  3 <= PIL.bands im ->
  0 <= c < 3 ->
  0 <= v <= 255 ->
  (forall x y, 0 <= x < 224 -> 0 <= y < 224 ->
     PIL.getpixel (crop_and_resize resample im) x y c = v) ->
  channel_mean 0 = 485 # 1000 /\ channel_std 0 = 229 # 1000 /\
  channel_mean 1 = 456 # 1000 /\ channel_std 1 = 224 # 1000 /\
  channel_mean 2 = 406 # 1000 /\ channel_std 2 = 225 # 1000 /\
  exists t : np.ndarray F,
    image_file_to_tensor resample fs path = Ok t /\
    forall y x, 0 <= y < 224 -> 0 <= x < 224 ->
      np.item t [c; y; x] =
        div (sub (div (of_int v) (of_decimal 255)) (of_decimal (channel_mean c)))
            (of_decimal (channel_std c)).
Proof.
  intros Hopen Hbands Hc _ Huniform. do 6 (split; [reflexivity |]).
  unfold image_file_to_tensor. rewrite Hopen. cbn [bind].
  destruct (image_to_tensor_ok (crop_and_resize resample im) 224 224)
    as (t & Ht & _ & Hitem).
  - apply crop_and_resize_size.
  - rewrite crop_and_resize_bands. exact Hbands.
  - exists t. split; [exact Ht |].
    intros y x Hy Hx. rewrite (Hitem c y x Hc), (Huniform x y Hx Hy).
    reflexivity.
Qed.

Lemma normalization_of_uniform_channel_witness :
  exists t : np.ndarray Q,
    image_file_to_tensor PIL.NEAREST Examples.one_each_fs "data/images/cat/c.jpg" = Ok t /\
    forall y x, 0 <= y < 224 -> 0 <= x < 224 ->
      np.item t [1; y; x] = ((120 / 255 - (456 # 1000)) / (224 # 1000))%Q.
Proof.
  refine (proj2 (proj2 (proj2 (proj2 (proj2 (proj2
    (normalization_of_uniform_channel (F := Q) PIL.NEAREST Examples.one_each_fs
       "data/images/cat/c.jpg" Examples.photo 1 120 eq_refl _ _ _ _))))))).
  - vm_compute. discriminate.
  - lia.
  - lia.
  - intros x y _ _. reflexivity.
Defined.

(** In binary32 every 8-bit pixel value is normalized, in each channel, to a
    finite number within 1/2000000 of the exact quotient. *)
Lemma binary32_normalization_accurate :
  forallb
    (fun c =>
       forallb
         (fun v =>
            binary32.is_finite (normalized (F := spec_float) c v)
            && Qle_bool (binary32_error c v) (1 # 2000000))
         (range 256))
    (range 3) = true.
Proof. vm_compute. reflexivity. Qed.

Lemma nearest_index_in_range (s x : Z) :
  0 < s -> 0 <= x < 224 -> 0 <= ((2 * x + 1) * s) / (2 * 224) < s.
Proof.
  intros Hs Hx. split.
  - apply Z.div_pos; nia.
  - apply Z.div_lt_upper_bound; nia.
Qed.

(** With the NEAREST filter a channel that holds one value over the input
    image holds it over the resized image. *)
Lemma crop_and_resize_nearest_uniform (im : PIL.Image) (width height c v : Z) :
  PIL.size im = (width, height) ->
  0 < width -> 0 < height ->
  (forall x y, 0 <= x < width -> 0 <= y < height -> PIL.getpixel im x y c = v) ->
  forall x y, 0 <= x < 224 -> 0 <= y < 224 ->
    PIL.getpixel (crop_and_resize PIL.NEAREST im) x y c = v.
Proof.
  intros Hsize Hw Hh Huniform x y Hx Hy. unfold crop_and_resize. rewrite Hsize.
  destruct (Z_gt_le_dec width height) as [Hgt | Hle].
  - rewrite crop_box_wide by assumption.
    cbn [PIL.resize PIL.crop PIL.getpixel PIL.NEAREST PIL.size].
    replace ((width - height) / 2 + height - (width - height) / 2) with height by lia.
    rewrite Z.sub_0_r.
    pose proof (nearest_index_in_range height x Hh Hx).
    pose proof (nearest_index_in_range height y Hh Hy).
    pose proof (Z.div_mod (width - height) 2).
    pose proof (Z.mod_pos_bound (width - height) 2).
    apply Huniform; lia.
  - rewrite crop_box_tall by assumption.
    cbn [PIL.resize PIL.crop PIL.getpixel PIL.NEAREST PIL.size].
    replace ((height - width) / 2 + width - (height - width) / 2) with width by lia.
    rewrite Z.sub_0_r.
    pose proof (nearest_index_in_range width x Hw Hx).
    pose proof (nearest_index_in_range width y Hw Hy).
    pose proof (Z.div_mod (height - width) 2).
    pose proof (Z.mod_pos_bound (height - width) 2).
    apply Huniform; lia.
Qed.

(** ** The dataset indexer *)

Lemma load_dataset_files_eq (fs : filesystem) :
  load_dataset_files fs =
    [("dog", glob.glob_star fs "data/images/dog");
     ("cat", glob.glob_star fs "data/images/cat");
     ("elephant", glob.glob_star fs "data/images/elephant");
     ("cow", glob.glob_star fs "data/images/cow")]%string.
Proof. reflexivity. Qed.


Lemma list_getitem_in_range {A : Type} (l : list A) (i : Z) :
  0 <= i < Z.of_nat (List.length l) ->
  exists a, list_getitem l i = Ok a /\ In a l.
Proof.
  intros Hi. unfold list_getitem.
  destruct (i <? 0) eqn:E; [lia |].
  destruct (0 <=? i) eqn:E1; [| lia].
  destruct (i <? Z.of_nat (List.length l)) eqn:E2; [| lia].
  cbn [andb].
  destruct (nth_error l (Z.to_nat i)) as [a |] eqn:Hnth.
  - exists a. split; [reflexivity |]. eapply nth_error_In. exact Hnth.
  - apply nth_error_None in Hnth. lia.
Qed.


(** ** The batch of a training step *)

Section BatchFacts.
Context {F : Type} `{Arith F}.
Variable resample : PIL.filter.
Variable fs : filesystem.

(** The inner-most loop over the four classes, written out. *)
Lemma build_batch_unfold (index : Z) :
  build_batch resample fs (load_dataset_files fs) index =
    (td <- class_tensor resample fs (load_dataset_files fs) "dog" index ;;
     tc <- class_tensor resample fs (load_dataset_files fs) "cat" index ;;
     te <- class_tensor resample fs (load_dataset_files fs) "elephant" index ;;
     tw <- class_tensor resample fs (load_dataset_files fs) "cow" index ;;
     Ok ([td; tc; te; tw], [0; 1; 2; 3]))%result.
Proof.
  rewrite load_dataset_files_eq. unfold build_batch, class_tensor.
  cbn -[list_getitem image_file_to_tensor glob.glob_star].
  destruct (list_getitem (glob.glob_star fs "data/images/dog") index) as [fd |];
    [cbn -[list_getitem image_file_to_tensor glob.glob_star] | reflexivity].
  destruct (image_file_to_tensor resample fs fd) as [td |];
    [cbn -[list_getitem image_file_to_tensor glob.glob_star] | reflexivity].
  destruct (list_getitem (glob.glob_star fs "data/images/cat") index) as [fc |];
    [cbn -[list_getitem image_file_to_tensor glob.glob_star] | reflexivity].
  destruct (image_file_to_tensor resample fs fc) as [tc |];
    [cbn -[list_getitem image_file_to_tensor glob.glob_star] | reflexivity].
  destruct (list_getitem (glob.glob_star fs "data/images/elephant") index) as [fe |];
    [cbn -[list_getitem image_file_to_tensor glob.glob_star] | reflexivity].
  destruct (image_file_to_tensor resample fs fe) as [te |];
    [cbn -[list_getitem image_file_to_tensor glob.glob_star] | reflexivity].
  destruct (list_getitem (glob.glob_star fs "data/images/cow") index) as [fw |];
    [cbn -[list_getitem image_file_to_tensor glob.glob_star] | reflexivity].
  destruct (image_file_to_tensor resample fs fw) as [tw |]; reflexivity.
Qed.

End BatchFacts.

(** ** The event log of the training loop *)

Lemma printed_app {F : Type} (evs1 evs2 : list (event F)) :
  printed (evs1 ++ evs2) = printed evs1 ++ printed evs2.
Proof. unfold printed. apply flat_map_app. Qed.

Lemma printed_steps {F : Type} (steps : list (event F)) :
  forallb is_step steps = true -> printed steps = [].
Proof.
  induction steps as [| [batch labels loss | epoch loss] steps IH]; cbn;
    [reflexivity | exact IH | discriminate].
Qed.

Lemma losses_app {F : Type} (evs1 evs2 : list (event F)) :
  losses (evs1 ++ evs2) = losses evs1 ++ losses evs2.
Proof. unfold losses. apply flat_map_app. Qed.

Lemma range_length (n : Z) : 0 <= n -> Z.of_nat (List.length (range n)) = n.
Proof.
  intros Hn. unfold range. rewrite length_map, length_seq. lia.
Qed.

Section LogFacts.
Context {F : Type} `{Arith F}.
Variable resample : PIL.filter.
Variable fs : filesystem.
Variable R : Runtime F.
Variable animals : dict (list string).

(** A training step that returns has logged one step and added its loss; one
    that raises has logged at most one step. *)
Lemma train_step_log (loss : F) (index : Z) (w : world R) :
  match (train_step resample fs R animals) loss index w with
  | (Ok loss', w') =>
      exists batch labels l,
        log w' = log w ++ [Step batch labels l] /\ loss' = add loss l
  | (Raise _, w') =>
      log w' = log w \/ exists batch labels l, log w' = log w ++ [Step batch labels l]
  end.
Proof.
  unfold train_step, bindM, lift, call_model, external, ret.
  destruct (build_batch resample fs animals index) as [[batch labels] | e];
    [| left; reflexivity].
  destruct (np.stack batch) as [b | e]; [| left; reflexivity].
  destruct (forward R (rt w) b labels) as [[l s] | e]; [| left; reflexivity].
  cbn [rt log].
  destruct (step R s) as [s1 | e];
    [| right; exists b, labels, l; reflexivity].
  cbn [rt log].
  destruct (lazy_reset_grad R s1) as [s2 | e];
    [| right; exists b, labels, l; reflexivity].
  cbn [rt log]. exists b, labels, l. split; reflexivity.
Qed.

(** The inner loop: the steps it logs, and the loss it has accumulated from
    [loss] when it returns. *)
Lemma inner_loop_log (indices : list Z) :
  forall (loss : F) (w : world R),
  exists steps : list (event F),
    forallb is_step steps = true /\
    log (snd (for_M R indices (train_step resample fs R animals) loss w)) = log w ++ steps /\
    match fst (for_M R indices (train_step resample fs R animals) loss w) with
    | Ok loss' =>
        List.length steps = List.length indices /\
        loss' = fold_left add (losses steps) loss
    | Raise _ => (List.length steps <= List.length indices)%nat
    end.
Proof.
  induction indices as [| index indices IH]; intros loss w.
  - exists []. cbn. rewrite app_nil_r.
    split; [reflexivity |]. split; [reflexivity |]. split; reflexivity.
  - cbn [for_M]. unfold bindM.
    pose proof (train_step_log loss index w) as Hstep.
    destruct ((train_step resample fs R animals) loss index w) as [[loss' | e] w'].
    + destruct Hstep as (batch & labels & l & Hlog & ->).
      destruct (IH (add loss l) w') as (steps & Hsteps & Hlog' & Hres).
      exists (Step batch labels l :: steps). split; [exact Hsteps |].
      split.
      * rewrite Hlog', Hlog, <- app_assoc. reflexivity.
      * destruct (fst (for_M R indices (train_step resample fs R animals) (add loss l) w')).
        -- destruct Hres as [Hlen ->]. cbn. split; [lia | reflexivity].
        -- cbn. lia.
    + cbn [fst snd]. destruct Hstep as [Hlog | (batch & labels & l & Hlog)].
      * exists []. rewrite app_nil_r. cbn.
        split; [reflexivity |]. split; [exact Hlog | lia].
      * exists [Step batch labels l]. cbn.
        split; [reflexivity |]. split; [exact Hlog | lia].
Qed.

(** One epoch: the steps, then the line with their mean loss when the epoch
    completes; steps alone when it raises. *)
Lemma train_epoch_log (epoch : Z) (w : world R) :
  exists steps : list (event F),
    forallb is_step steps = true /\
    match fst ((train_epoch resample fs R animals) tt epoch w) with
    | Ok _ =>
        Z.of_nat (List.length steps) = num_samples_per_class /\
        log (snd ((train_epoch resample fs R animals) tt epoch w)) = log w ++ epoch_events epoch steps
    | Raise _ =>
        Z.of_nat (List.length steps) <= num_samples_per_class /\
        log (snd ((train_epoch resample fs R animals) tt epoch w)) = log w ++ steps
    end.
Proof.
  unfold train_epoch, bindM, external, print.
  destruct (train R (rt w)) as [s | e].
  - set (w1 := {| rt := s; log := log w |}).
    destruct (inner_loop_log (range num_samples_per_class) (of_int 0) w1)
      as (steps & Hsteps & Hlog & Hres).
    exists steps. split; [exact Hsteps |].
    destruct (for_M R (range num_samples_per_class) (train_step resample fs R animals) (of_int 0) w1)
      as [[loss | e] w2]; cbn [fst snd log] in *.
    + destruct Hres as [Hlen ->]. split.
      * rewrite Hlen. apply range_length. discriminate.
      * rewrite Hlog. unfold epoch_events, mean_loss.
        rewrite <- app_assoc. reflexivity.
    + split; [| exact Hlog].
      rewrite <- (range_length num_samples_per_class) by discriminate. lia.
  - exists []. cbn. rewrite app_nil_r.
    split; [reflexivity |]. split; [discriminate | reflexivity].
Qed.

(** The outer loop over the epochs [epochs]. *)
Lemma outer_loop_log (epochs : list Z) :
  forall w : world R,
  exists (done : list (list (event F))) (rest : list (event F)),
    log (snd (for_M R epochs (train_epoch resample fs R animals) tt w)) =
      log w
      ++ List.concat (map (fun p => epoch_events (fst p) (snd p)) (combine epochs done))
      ++ rest /\
    Forall (fun steps => forallb is_step steps = true /\
                         Z.of_nat (List.length steps) = num_samples_per_class) done /\
    forallb is_step rest = true /\
    match fst (for_M R epochs (train_epoch resample fs R animals) tt w) with
    | Ok _ => List.length done = List.length epochs /\ rest = []
    | Raise _ =>
        (List.length done < List.length epochs)%nat /\
        Z.of_nat (List.length rest) <= num_samples_per_class
    end.
Proof.
  induction epochs as [| epoch epochs IH]; intros w.
  - exists [], []. cbn. rewrite app_nil_r.
    split; [reflexivity |]. split; [constructor |].
    split; [reflexivity |]. split; reflexivity.
  - cbn [for_M]. unfold bindM.
    destruct (train_epoch_log epoch w) as (steps & Hsteps & Hepoch).
    destruct ((train_epoch resample fs R animals) tt epoch w) as [[[] | e] w1]; cbn [fst snd] in *.
    + destruct Hepoch as [Hlen Hlog].
      destruct (IH w1) as (done & rest & Hlog' & Hdone & Hrest & Hres).
      exists (steps :: done), rest. split.
      * rewrite Hlog', Hlog. cbn [combine map List.concat fst snd].
        rewrite <- !app_assoc. reflexivity.
      * split; [constructor; [split |]; assumption |].
        split; [exact Hrest |].
        destruct (fst (for_M R epochs (train_epoch resample fs R animals) tt w1)).
        -- destruct Hres as [Hn ->]. cbn. split; [lia | reflexivity].
        -- cbn. split; [lia | apply Hres].
    + destruct Hepoch as [Hlen Hlog].
      exists [], steps. cbn.
      split; [exact Hlog |]. split; [constructor |].
      split; [exact Hsteps |]. split; [lia | exact Hlen].
Qed.

(** Every step event of the log carries a batch the loop built. *)
Lemma train_step_built (loss : F) (index : Z) (w : world R) :
  In index (range num_samples_per_class) ->
  Forall (step_built resample fs animals) (log w) ->
  Forall (step_built resample fs animals)
    (log (snd (train_step resample fs R animals loss index w))).
Proof.
  intros Hindex Hw.
  unfold train_step, bindM, lift, call_model, external, ret.
  destruct (build_batch resample fs animals index) as [[tensors labels] | e] eqn:Hbuild;
    [| exact Hw].
  destruct (np.stack tensors) as [b | e] eqn:Hstack; [| exact Hw].
  destruct (forward R (rt w) b labels) as [[l s] | e]; [| exact Hw].
  assert (Hw' : Forall (step_built resample fs animals) (log w ++ [Step b labels l])).
  { apply Forall_app. split; [exact Hw |]. constructor; [| constructor].
    exists index, tensors. repeat split; assumption. }
  cbn [rt log].
  destruct (step R s) as [s1 | e]; [| exact Hw'].
  cbn [rt log].
  destruct (lazy_reset_grad R s1) as [s2 | e]; exact Hw'.
Qed.

Lemma inner_loop_built (indices : list Z) :
  (forall index, In index indices -> In index (range num_samples_per_class)) ->
  forall (loss : F) (w : world R),
    Forall (step_built resample fs animals) (log w) ->
    Forall (step_built resample fs animals)
      (log (snd (for_M R indices (train_step resample fs R animals) loss w))).
Proof.
  induction indices as [| index indices IH]; intros Hin loss w Hw.
  - exact Hw.
  - cbn [for_M]. unfold bindM.
    pose proof (train_step_built loss index w (Hin index (or_introl eq_refl)) Hw)
      as Hstep.
    destruct (train_step resample fs R animals loss index w) as [[loss' | e] w'];
      cbn [snd] in *.
    + apply IH; [intros i Hi; apply Hin; right; exact Hi | exact Hstep].
    + exact Hstep.
Qed.

Lemma train_epoch_built (epoch : Z) (w : world R) :
  Forall (step_built resample fs animals) (log w) ->
  Forall (step_built resample fs animals)
    (log (snd (train_epoch resample fs R animals tt epoch w))).
Proof.
  intros Hw. unfold train_epoch, bindM, external, print.
  destruct (train R (rt w)) as [s | e]; [| exact Hw].
  pose proof (inner_loop_built (range num_samples_per_class) (fun _ Hi => Hi)
                (of_int 0) {| rt := s; log := log w |} Hw) as Hloop.
  destruct (for_M R (range num_samples_per_class) (train_step resample fs R animals)
              (of_int 0) {| rt := s; log := log w |}) as [[loss | e] w'];
    cbn [snd log] in *.
  - apply Forall_app. split; [exact Hloop |]. constructor; [exact I | constructor].
  - exact Hloop.
Qed.

Lemma outer_loop_built (epochs : list Z) :
  forall w : world R,
    Forall (step_built resample fs animals) (log w) ->
    Forall (step_built resample fs animals)
      (log (snd (for_M R epochs (train_epoch resample fs R animals) tt w))).
Proof.
  induction epochs as [| epoch epochs IH]; intros w Hw.
  - exact Hw.
  - cbn [for_M]. unfold bindM.
    pose proof (train_epoch_built epoch w Hw) as Hepoch.
    destruct (train_epoch resample fs R animals tt epoch w) as [[[] | e] w'];
      cbn [snd] in *.
    + apply IH. exact Hepoch.
    + exact Hepoch.
Qed.

End LogFacts.

(** C9: the classes are iterated as dog, cat, elephant, cow and their labels
    are 0, 1, 2, 3; the batch of a sample index is built when each of the
    four classes has a sample at that index that the preprocessor accepts,
    and then it holds the tensors of that sample of dog, cat, elephant and
    cow, in this order, next to the labels 0, 1, 2, 3; and every training
    step of the loop hands the module the stack of such a batch and its
    labels. *)
Theorem batch_has_one_tensor_per_class {F : Type} `{Arith F}
    (resample : PIL.filter) (fs : filesystem) :
  let animals := load_dataset_files fs in
  keys animals = ["dog"; "cat"; "elephant"; "cow"]%string /\
  map (dict_getitem label_to_id_map) (keys animals) = [Ok 0; Ok 1; Ok 2; Ok 3] /\
  (forall (index : Z) (batch : list (np.ndarray F)) (labels : list Z),
     build_batch resample fs animals index = Ok (batch, labels) <->
     exists td tc te tw,
       class_tensor resample fs animals "dog" index = Ok td /\
       class_tensor resample fs animals "cat" index = Ok tc /\
       class_tensor resample fs animals "elephant" index = Ok te /\
       class_tensor resample fs animals "cow" index = Ok tw /\
       batch = [td; tc; te; tw] /\
       labels = [0; 1; 2; 3]) /\
  (forall (R : Runtime F) (s0 : state R),
     Forall (step_built resample fs animals) (log (snd (run resample fs R s0)))).
Proof.
  cbv zeta. split; [reflexivity |]. split; [reflexivity |]. split.
  - intros index batch labels. rewrite build_batch_unfold. split.
    + intros Hbuild.
      destruct (class_tensor resample fs (load_dataset_files fs) "dog" index) as [td |];
        [cbn [bind] in Hbuild | discriminate].
      destruct (class_tensor resample fs (load_dataset_files fs) "cat" index) as [tc |];
        [cbn [bind] in Hbuild | discriminate].
      destruct (class_tensor resample fs (load_dataset_files fs) "elephant" index) as [te |];
        [cbn [bind] in Hbuild | discriminate].
      destruct (class_tensor resample fs (load_dataset_files fs) "cow" index) as [tw |];
        [cbn [bind] in Hbuild | discriminate].
      injection Hbuild as <- <-. exists td, tc, te, tw. repeat split; reflexivity.
    + intros (td & tc & te & tw & -> & -> & -> & -> & -> & ->). reflexivity.
  - intros R s0. unfold run, training_loop.
    apply outer_loop_built. constructor.
Qed.

Lemma batch_has_one_tensor_per_class_witness :
  exists batch : list (np.ndarray Q),
    build_batch PIL.NEAREST Examples.one_each_fs
      (load_dataset_files Examples.one_each_fs) 0 = Ok (batch, [0; 1; 2; 3]) /\
    List.length batch = 4%nat.
Proof.
  destruct (class_tensor (F := Q) PIL.NEAREST Examples.one_each_fs
              (load_dataset_files Examples.one_each_fs) "dog" 0) as [td |] eqn:Hd;
    [| discriminate Hd].
  destruct (class_tensor (F := Q) PIL.NEAREST Examples.one_each_fs
              (load_dataset_files Examples.one_each_fs) "cat" 0) as [tc |] eqn:Hc;
    [| discriminate Hc].
  destruct (class_tensor (F := Q) PIL.NEAREST Examples.one_each_fs
              (load_dataset_files Examples.one_each_fs) "elephant" 0) as [te |] eqn:He;
    [| discriminate He].
  destruct (class_tensor (F := Q) PIL.NEAREST Examples.one_each_fs
              (load_dataset_files Examples.one_each_fs) "cow" 0) as [tw |] eqn:Hw;
    [| discriminate Hw].
  exists [td; tc; te; tw]. split; [| reflexivity].
  apply (proj1 (proj2 (proj2
    (batch_has_one_tensor_per_class PIL.NEAREST Examples.one_each_fs))) 0
    [td; tc; te; tw] [0; 1; 2; 3]).
  exists td, tc, te, tw. repeat split; assumption.
Defined.

(** The log of the training loop is, epoch after epoch, 20 training steps
    followed by the one line printed for the epoch, whose loss is the sum of
    the losses of these 20 steps (from 0, in order) over 20; an epoch that
    does not complete prints nothing. *)
Lemma log_by_epochs {F : Type} `{Arith F}
    (resample : PIL.filter) (fs : filesystem) (R : Runtime F) (s0 : state R) :
  exists (done : list (list (event F))) (rest : list (event F)),
    log (snd (run resample fs R s0)) =
      List.concat (map (fun p => epoch_events (fst p) (snd p))
                  (combine (range num_epochs) done))
      ++ rest /\
    Forall (fun steps => forallb is_step steps = true /\
                         Z.of_nat (List.length steps) = num_samples_per_class) done /\
    forallb is_step rest = true /\
    match fst (run resample fs R s0) with
    | Ok _ => Z.of_nat (List.length done) = num_epochs /\ rest = []
    | Raise _ =>
        Z.of_nat (List.length done) < num_epochs /\
        Z.of_nat (List.length rest) <= num_samples_per_class
    end.
Proof.
  unfold run, training_loop.
  destruct (outer_loop_log resample fs R (load_dataset_files fs) (range num_epochs)
              {| rt := s0; log := [] |})
    as (done & rest & Hlog & Hdone & Hrest & Hres).
  exists done, rest. split; [exact Hlog |]. split; [exact Hdone |].
  split; [exact Hrest |].
  destruct (fst (for_M R (range num_epochs)
                   (train_epoch resample fs R (load_dataset_files fs)) tt
                   {| rt := s0; log := [] |})).
  - destruct Hres as [Hn ->]. split; [| reflexivity].
    rewrite Hn. apply range_length. discriminate.
  - destruct Hres as [Hn Hlen]. split; [| exact Hlen].
    rewrite <- (range_length num_epochs) by discriminate. lia.
Qed.

(** *** The loop against the epochs taken step by step *)

Section EpochFacts.
Context {F : Type} `{Arith F}.
Variable resample : PIL.filter.
Variable fs : filesystem.
Variable R : Runtime F.
Variable animals : dict (list string).

Lemma printed_snoc_step (evs : list (event F)) (batch : np.ndarray F)
    (labels : list Z) (loss : F) :
  printed (evs ++ [Step batch labels loss]) = printed evs.
Proof. unfold printed. rewrite flat_map_app. cbn. apply app_nil_r. Qed.

(** A pass of the inner loop is a step from the state of the runtime: it
    adds the loss that the module returned to the accumulator, and it prints
    nothing. *)
Lemma train_step_refines (loss : F) (index : Z) (w : world R) :
  printed (log (snd (train_step resample fs R animals loss index w)))
    = printed (log w) /\
  match step_outcome resample fs R animals (rt w) index with
  | Ok (l, s) =>
      fst (train_step resample fs R animals loss index w) = Ok (add loss l) /\
      rt (snd (train_step resample fs R animals loss index w)) = s
  | Raise e => fst (train_step resample fs R animals loss index w) = Raise e
  end.
Proof.
  unfold train_step, step_outcome, bindM, lift, call_model, external, ret.
  destruct (build_batch resample fs animals index) as [[tensors labels] | e];
    cbn [bind fst snd]; [| split; reflexivity].
  destruct (np.stack tensors) as [b | e]; cbn [bind fst snd]; [| split; reflexivity].
  destruct (forward R (rt w) b labels) as [[l s1] | e]; cbn [bind fst snd rt log];
    [| split; reflexivity].
  destruct (step R s1) as [s2 | e]; cbn [bind fst snd rt log];
    [| split; [apply printed_snoc_step | reflexivity]].
  destruct (lazy_reset_grad R s2) as [s3 | e]; cbn [bind fst snd rt log].
  - split; [apply printed_snoc_step |]. split; reflexivity.
  - split; [apply printed_snoc_step | reflexivity].
Qed.

Lemma inner_loop_refines (indices : list Z) :
  forall (loss : F) (w : world R),
    printed (log (snd (for_M R indices (train_step resample fs R animals) loss w)))
      = printed (log w) /\
    match step_losses resample fs R animals (rt w) indices with
    | Ok (ls, s) =>
        fst (for_M R indices (train_step resample fs R animals) loss w)
          = Ok (fold_left add ls loss) /\
        rt (snd (for_M R indices (train_step resample fs R animals) loss w)) = s
    | Raise e =>
        fst (for_M R indices (train_step resample fs R animals) loss w) = Raise e
    end.
Proof.
  induction indices as [| index indices IH]; intros loss w.
  - cbn. split; [reflexivity |]. split; reflexivity.
  - cbn [for_M step_losses]. unfold bindM.
    destruct (train_step_refines loss index w) as [Hprinted Hstep].
    destruct (train_step resample fs R animals loss index w) as [[loss' | e] w'];
      cbn [fst snd] in *.
    + destruct (step_outcome resample fs R animals (rt w) index) as [[l s] | e];
        [| discriminate Hstep].
      destruct Hstep as [[= ->] <-]. cbn [bind].
      destruct (IH (add loss l) w') as [IHprinted IHloop].
      split; [rewrite IHprinted; exact Hprinted |].
      destruct (step_losses resample fs R animals (rt w') indices) as [[ls s] | e];
        cbn [bind fold_left]; exact IHloop.
    + split; [exact Hprinted |].
      destruct (step_outcome resample fs R animals (rt w) index) as [[l s] | e'].
      * destruct Hstep as [Hstep _]. discriminate Hstep.
      * cbn [bind]. exact Hstep.
Qed.

Lemma train_epoch_refines (epoch : Z) (w : world R) :
  match epoch_mean resample fs R animals (rt w) with
  | Ok (mean, s) =>
      fst (train_epoch resample fs R animals tt epoch w) = Ok tt /\
      rt (snd (train_epoch resample fs R animals tt epoch w)) = s /\
      printed (log (snd (train_epoch resample fs R animals tt epoch w)))
        = printed (log w) ++ [(epoch + 1, mean)]
  | Raise e =>
      fst (train_epoch resample fs R animals tt epoch w) = Raise e /\
      printed (log (snd (train_epoch resample fs R animals tt epoch w)))
        = printed (log w)
  end.
Proof.
  unfold train_epoch, epoch_mean, bindM, external, print.
  destruct (train R (rt w)) as [s1 | e]; cbn [bind]; [| split; reflexivity].
  destruct (inner_loop_refines (range num_samples_per_class) (of_int 0)
              {| rt := s1; log := log w |}) as [Hprinted Hloop].
  cbn [rt log] in Hprinted, Hloop.
  destruct (for_M R (range num_samples_per_class) (train_step resample fs R animals)
              (of_int 0) {| rt := s1; log := log w |}) as [[loss | e] w'];
    cbn [fst snd] in *.
  - destruct (step_losses resample fs R animals s1 (range num_samples_per_class))
      as [[ls s] | e]; [| discriminate Hloop].
    destruct Hloop as [[= ->] <-]. cbn [bind rt log fst snd].
    split; [reflexivity |]. split; [reflexivity |].
    rewrite printed_app, Hprinted. reflexivity.
  - destruct (step_losses resample fs R animals s1 (range num_samples_per_class))
      as [[ls s] | e'].
    + destruct Hloop as [Hloop _]. discriminate Hloop.
    + cbn [bind]. injection Hloop as ->. split; [reflexivity | exact Hprinted].
Qed.

Lemma outer_loop_refines (epochs : list Z) :
  forall w : world R,
    printed (log (snd (for_M R epochs (train_epoch resample fs R animals) tt w)))
      = printed (log w) ++ fst (reports resample fs R animals (rt w) epochs) /\
    fst (for_M R epochs (train_epoch resample fs R animals) tt w)
      = snd (reports resample fs R animals (rt w) epochs).
Proof.
  induction epochs as [| epoch epochs IH]; intros w.
  - cbn. rewrite app_nil_r. split; reflexivity.
  - cbn [for_M reports]. unfold bindM.
    pose proof (train_epoch_refines epoch w) as Hepoch.
    destruct (epoch_mean resample fs R animals (rt w)) as [[mean s] | e].
    + destruct Hepoch as (Hfst & Hrt & Hprinted).
      destruct (train_epoch resample fs R animals tt epoch w) as [[[] | e] w'];
        cbn [fst snd] in *; [| discriminate Hfst].
      subst s. destruct (IH w') as [IHprinted IHfst].
      destruct (reports resample fs R animals (rt w') epochs) as [lines outcome].
      cbn [fst snd] in *. split; [| exact IHfst].
      rewrite IHprinted, Hprinted, <- app_assoc. reflexivity.
    + destruct Hepoch as [Hfst Hprinted].
      destruct (train_epoch resample fs R animals tt epoch w) as [[[] | e'] w'];
        cbn [fst snd] in *; [discriminate Hfst |].
      rewrite app_nil_r. split; [exact Hprinted | exact Hfst].
Qed.

(** The epochs that are reported are numbered from 1, in order. *)
Lemma reports_numbered (epochs : list Z) :
  forall s : state R,
    snd (reports resample fs R animals s epochs) = Ok tt ->
    map fst (fst (reports resample fs R animals s epochs))
      = map (fun epoch => epoch + 1) epochs.
Proof.
  induction epochs as [| epoch epochs IH]; intros s; [reflexivity |].
  cbn [reports]. destruct (epoch_mean resample fs R animals s) as [[mean s'] | e];
    [| discriminate].
  specialize (IH s').
  destruct (reports resample fs R animals s' epochs) as [lines outcome].
  cbn [fst snd map] in *. intros Hok. rewrite (IH Hok). reflexivity.
Qed.

End EpochFacts.



(** ** A class with too few samples *)

Lemma dict_getitem_In {V : Type} (d : dict V) (k : string) (v : V) :
  dict_getitem d k = Ok v -> In (k, v) d.
Proof.
  induction d as [| [k' v'] d IH]; cbn; [discriminate |].
  destruct (String.eqb k k') eqn:E.
  - apply String.eqb_eq in E. intros [= ->]. left. congruence.
  - intros Hget. right. apply IH. exact Hget.
Qed.

Lemma fewest_samples_eq (fs : filesystem) :
  fewest_samples (load_dataset_files fs) =
    Z.min (Z.min (Z.min (Z.of_nat (List.length (glob.glob_star fs "data/images/dog")))
                        (Z.of_nat (List.length (glob.glob_star fs "data/images/cat"))))
                 (Z.of_nat (List.length (glob.glob_star fs "data/images/elephant"))))
          (Z.of_nat (List.length (glob.glob_star fs "data/images/cow"))).
Proof. reflexivity. Qed.


Lemma range_bounds (n i : Z) : In i (range n) -> 0 <= i < n.
Proof.
  unfold range. rewrite in_map_iff. intros (k & <- & Hk).
  apply in_seq in Hk. lia.
Qed.

(** ** The loop on a dataset that is large enough, and on one that is not *)


Lemma list_getitem_at {A : Type} (l : list A) (i : Z) :
  0 <= i < Z.of_nat (List.length l) ->
  exists a, list_getitem l i = Ok a /\ nth_error l (Z.to_nat i) = Some a.
Proof.
  intros Hi. unfold list_getitem.
  destruct (i <? 0) eqn:E; [lia |].
  destruct (0 <=? i) eqn:E1; [| lia].
  destruct (i <? Z.of_nat (List.length l)) eqn:E2; [| lia].
  cbn [andb].
  destruct (nth_error l (Z.to_nat i)) as [a |] eqn:Hnth.
  - exists a. split; reflexivity.
  - apply nth_error_None in Hnth. lia.
Qed.

Lemma first_samples_In (animals : dict (list string)) (animal : string)
    (files : list string) :
  In (animal, files) animals ->
  In (animal, firstn (Z.to_nat num_samples_per_class) files) (first_samples animals).
Proof.
  intros Hin. unfold first_samples.
  apply (in_map (fun p => (fst p, firstn (Z.to_nat num_samples_per_class) (snd p)))
                animals (animal, files) Hin).
Qed.

Section RunFacts.
Context {F : Type} `{Arith F}.
Variable resample : PIL.filter.
Variable fs : filesystem.
Variable R : Runtime F.


(** One of the first 20 samples of a class, when the first 20 files of every
    class are pictures of three bands: a tensor of shape (3, 224, 224). *)
Lemma class_tensor_ok (animal : string) (files : list string) (index : Z) :
  all_rgb fs (first_samples (load_dataset_files fs)) = true ->
  dict_getitem (load_dataset_files fs) animal = Ok files ->
  0 <= index < Z.of_nat (List.length files) ->
  index < num_samples_per_class ->
  exists t : np.ndarray F,
    class_tensor resample fs (load_dataset_files fs) animal index = Ok t /\
    np.shape t = [3; 224; 224].
Proof.
  intros images_ok Hfiles Hindex Hfirst. unfold class_tensor. rewrite Hfiles. cbn [bind].
  destruct (list_getitem_at files index Hindex) as (path & -> & Hnth).
  cbn [bind].
  apply dict_getitem_In, first_samples_In in Hfiles.
  unfold all_rgb in images_ok. rewrite forallb_forall in images_ok.
  specialize (images_ok _ Hfiles). cbn beta iota in images_ok.
  rewrite forallb_forall in images_ok.
  assert (Hin : In path (firstn (Z.to_nat num_samples_per_class) files)).
  { apply (nth_error_In _ (Z.to_nat index)). rewrite nth_error_firstn.
    destruct (Nat.ltb_spec (Z.to_nat index) (Z.to_nat num_samples_per_class));
      [exact Hnth | lia]. }
  specialize (images_ok _ Hin).
  destruct (Image_open fs path) as [im |] eqn:Hopen; [| discriminate].
  apply Z.eqb_eq in images_ok.
  exact (image_file_to_tensor_rgb resample fs path im Hopen images_ok).
Qed.

(** The batch of one of the first 20 sample indices, below the length of the
    shortest list: four tensors of shape (3, 224, 224). *)
Lemma build_batch_ok (index : Z) :
  all_rgb fs (first_samples (load_dataset_files fs)) = true ->
  0 <= index < fewest_samples (load_dataset_files fs) ->
  index < num_samples_per_class ->
  exists td tc te tw : np.ndarray F,
    build_batch resample fs (load_dataset_files fs) index
      = Ok ([td; tc; te; tw], [0; 1; 2; 3]) /\
    np.shape td = [3; 224; 224] /\ np.shape tc = [3; 224; 224] /\
    np.shape te = [3; 224; 224] /\ np.shape tw = [3; 224; 224].
Proof.
  rewrite fewest_samples_eq. intros images_ok Hindex Hfirst. rewrite build_batch_unfold.
  destruct (class_tensor_ok "dog" (glob.glob_star fs "data/images/dog") index images_ok eq_refl)
    as (td & -> & Hd); [lia | exact Hfirst |].
  destruct (class_tensor_ok "cat" (glob.glob_star fs "data/images/cat") index images_ok eq_refl)
    as (tc & -> & Hc); [lia | exact Hfirst |].
  destruct (class_tensor_ok "elephant" (glob.glob_star fs "data/images/elephant") index images_ok eq_refl)
    as (te & -> & He); [lia | exact Hfirst |].
  destruct (class_tensor_ok "cow" (glob.glob_star fs "data/images/cow") index images_ok eq_refl)
    as (tw & -> & Hw); [lia | exact Hfirst |].
  exists td, tc, te, tw. cbn [bind]. repeat split; assumption.
Qed.

Lemma stack_four (td tc te tw : np.ndarray F) :
  np.shape td = [3; 224; 224] -> np.shape tc = [3; 224; 224] ->
  np.shape te = [3; 224; 224] -> np.shape tw = [3; 224; 224] ->
  exists b, np.stack [td; tc; te; tw] = Ok b /\ np.shape b = [4; 3; 224; 224].
Proof.
  intros Hd Hc He Hw. unfold np.stack. cbn [forallb].
  rewrite Hd, Hc, He, Hw. eexists. split; [reflexivity |].
  reflexivity.
Qed.

(** *** A dataset that is large enough *)

Section FullDataset.
Variable Inv : state R -> Prop.
Hypothesis runtime_ok : runtime_accepts R Inv.
Hypothesis images_ok : all_rgb fs (first_samples (load_dataset_files fs)) = true.
Hypothesis enough : num_samples_per_class <= fewest_samples (load_dataset_files fs).

(** A step of one of the 20 sample indices goes through, and leaves the
    runtime in a state of [Inv]. *)
Lemma train_step_ok (loss : F) (index : Z) (w : world R) :
  In index (range num_samples_per_class) ->
  Inv (rt w) ->
  exists loss' w',
    train_step resample fs R (load_dataset_files fs) loss index w = (Ok loss', w') /\
    Inv (rt w').
Proof.
  intros Hindex Hinv. apply range_bounds in Hindex.
  destruct (build_batch_ok index images_ok) as (td & tc & te & tw & Hb & Hd & Hc & He & Hw);
    [lia | lia |].
  destruct (stack_four td tc te tw Hd Hc He Hw) as (b & Hstack & Hshape).
  destruct runtime_ok as (_ & Hforward & Hstep & Hreset).
  unfold train_step, bindM, lift, call_model, external, ret.
  rewrite Hb, Hstack.
  specialize (Hforward (rt w) b [0; 1; 2; 3] Hinv Hshape eq_refl).
  destruct (forward R (rt w) b [0; 1; 2; 3]) as [[l s1] |]; [| contradiction].
  cbn [rt log].
  specialize (Hstep s1 Hforward). destruct (step R s1) as [s2 |]; [| contradiction].
  cbn [rt log].
  specialize (Hreset s2 Hstep). destruct (lazy_reset_grad R s2) as [s3 |]; [| contradiction].
  cbn [rt log]. eexists _, _. split; [reflexivity | exact Hreset].
Qed.

Lemma inner_loop_returns (indices : list Z) :
  (forall index, In index indices -> In index (range num_samples_per_class)) ->
  forall (loss : F) (w : world R),
    Inv (rt w) ->
    exists loss' w',
      for_M R indices (train_step resample fs R (load_dataset_files fs)) loss w
        = (Ok loss', w') /\
      Inv (rt w').
Proof.
  induction indices as [| index indices IH]; intros Hin loss w Hinv.
  - exists loss, w. split; [reflexivity | exact Hinv].
  - cbn [for_M]. unfold bindM.
    destruct (train_step_ok loss index w (Hin index (or_introl eq_refl)) Hinv)
      as (loss1 & w1 & -> & Hinv1).
    apply IH; [| exact Hinv1]. intros i Hi. apply Hin. right. exact Hi.
Qed.

Lemma train_epoch_returns (epoch : Z) (w : world R) :
  Inv (rt w) ->
  exists w',
    train_epoch resample fs R (load_dataset_files fs) tt epoch w = (Ok tt, w') /\
    Inv (rt w').
Proof.
  intros Hinv. unfold train_epoch, bindM, external, print.
  destruct runtime_ok as (Htrain & _). specialize (Htrain (rt w) Hinv).
  destruct (train R (rt w)) as [s |]; [| contradiction].
  destruct (inner_loop_returns (range num_samples_per_class) (fun _ Hi => Hi)
              (of_int 0) {| rt := s; log := log w |} Htrain)
    as (loss & w' & -> & Hinv').
  eexists. split; [reflexivity | exact Hinv'].
Qed.

Lemma outer_loop_returns (epochs : list Z) :
  forall w : world R,
    Inv (rt w) ->
    fst (for_M R epochs (train_epoch resample fs R (load_dataset_files fs)) tt w)
      = Ok tt.
Proof.
  induction epochs as [| epoch epochs IH]; intros w Hinv; [reflexivity |].
  cbn [for_M]. unfold bindM.
  destruct (train_epoch_returns epoch w Hinv) as (w' & -> & Hinv').
  apply IH. exact Hinv'.
Qed.

Lemma run_completes (s0 : state R) :
  Inv s0 -> fst (run resample fs R s0) = Ok tt.
Proof.
  intros Hinv. unfold run, training_loop. apply outer_loop_returns. exact Hinv.
Qed.

End FullDataset.

(** *** A class with too few samples *)








End RunFacts.

(** C7: what the loop prints and how it ends is what the epochs give when
    they are taken step by step from the initial state of the runtime: each
    epoch that completes is reported once, as (epoch + 1, mean), where mean is
    the sum, from 0 and in order, of the losses that the module returned in
    the 20 steps of that epoch, over 20, the steps of an epoch starting from
    the state in which the epoch before left the runtime; the loop returns
    exactly when all 5 epochs complete, it then has reported the epochs 1 to
    5, and otherwise it raises what the first failing call raises.  The loop
    does return when each class lists at least 20 files, the first 20 files
    of each class are pictures of three bands, and the runtime accepts the
    calls of the loop on batches of shape (4, 3, 224, 224) from the states it
    reaches.  In the log every printed line closes the 20 steps whose losses
    it sums. *)
Theorem one_mean_loss_per_epoch {F : Type} `{Arith F}
    (resample : PIL.filter) (fs : filesystem) (R : Runtime F) (s0 : state R) :
  let animals := load_dataset_files fs in
  let expected := reports resample fs R animals s0 (range num_epochs) in
  printed (log (snd (run resample fs R s0))) = fst expected /\
  fst (run resample fs R s0) = snd expected /\
  (fst (run resample fs R s0) = Ok tt ->
   map fst (printed (log (snd (run resample fs R s0)))) = [1; 2; 3; 4; 5]) /\
  (forall Inv : state R -> Prop,
     Inv s0 ->
     runtime_accepts R Inv ->
     all_rgb fs (first_samples animals) = true ->
     num_samples_per_class <= fewest_samples animals ->
     fst (run resample fs R s0) = Ok tt) /\
  exists (done : list (list (event F))) (rest : list (event F)),
    log (snd (run resample fs R s0)) =
      List.concat (map (fun p => epoch_events (fst p) (snd p))
                       (combine (range num_epochs) done))
      ++ rest /\
    Forall (fun steps => forallb is_step steps = true /\
                         Z.of_nat (List.length steps) = num_samples_per_class) done /\
    forallb is_step rest = true /\
    match fst (run resample fs R s0) with
    | Ok _ => Z.of_nat (List.length done) = num_epochs /\ rest = []
    | Raise _ =>
        Z.of_nat (List.length done) < num_epochs /\
        Z.of_nat (List.length rest) <= num_samples_per_class
    end.
Proof.
  cbv zeta.
  destruct (outer_loop_refines resample fs R (load_dataset_files fs) (range num_epochs)
              {| rt := s0; log := [] |}) as [Hprinted Hfst].
  cbn [rt log printed flat_map app] in Hprinted, Hfst.
  split; [exact Hprinted |]. split; [exact Hfst |]. split; [| split].
  - intros Hok. unfold run, training_loop in *. rewrite Hprinted.
    rewrite Hfst in Hok.
    rewrite (reports_numbered resample fs R (load_dataset_files fs) _ _ Hok).
    reflexivity.
  - intros Inv Hinv Hrt Hrgb Henough.
    exact (run_completes resample fs R Inv Hrt Hrgb Henough s0 Hinv).
  - apply log_by_epochs.
Qed.

Lemma one_mean_loss_per_epoch_witness :
  fst (run PIL.NEAREST Examples.full_fs Examples.counting_runtime 0) = Ok tt /\
  printed (log (snd (run PIL.NEAREST Examples.full_fs Examples.counting_runtime 0)))
    = [(1, 190 # 20); (2, 590 # 20); (3, 990 # 20); (4, 1390 # 20); (5, 1790 # 20)].
Proof.
  destruct (one_mean_loss_per_epoch PIL.NEAREST Examples.full_fs
              Examples.counting_runtime 0) as (Hprinted & _ & _ & Hreturns & _).
  split.
  - apply (Hreturns (fun _ => True)).
    + exact I.
    + repeat split.
    + vm_compute. reflexivity.
    + vm_compute. discriminate.
  - rewrite Hprinted. vm_compute. reflexivity.
Defined.






(** On twenty pictures of each class and a runtime whose loss is the number
    of steps taken so far, the loop returns after printing five lines. *)
Lemma full_run_prints_five_losses :
  fst (run PIL.NEAREST Examples.full_fs Examples.counting_runtime 0) = Ok tt /\
  printed (log (snd (run PIL.NEAREST Examples.full_fs Examples.counting_runtime 0)))
    = [(1, 190 # 20); (2, 590 # 20); (3, 990 # 20); (4, 1390 # 20); (5, 1790 # 20)].
Proof. vm_compute. split; reflexivity. Qed.

(** ** The softmax of the prediction *)

(** C6 fails in binary32 on the finite logits (1000, 0, 0, 0): the
    exponential of 1000 is above every binary32 number, so [np.exp] gives
    +inf for it (and 1 for 0); the sum of the exponentials is +inf, the first
    quotient is inf/inf = NaN and the others are 1/inf = 0; times 100 the
    scores are (NaN, 0, 0, 0), and their sum is NaN, not 100.  The code
    takes the exponentials of the logits as they come, without subtracting
    their maximum. *)
Theorem softmax_overflow (exp32 : spec_float -> spec_float) :
  exp32 (binary32.of_Z 1000) = S754_infinity false ->
  exp32 (binary32.of_Z 0) = binary32.of_Z 1 ->
  let logits := map binary32.of_Z [1000; 0; 0; 0] in
  forallb binary32.is_finite logits = true /\
  fold_left add (map exp32 logits) (of_int 0) = S754_infinity false /\
  softmax exp32 logits
    = [S754_nan; S754_zero false; S754_zero false; S754_zero false] /\
  probabilities exp32 binary32.mul logits
    = [S754_nan; S754_zero false; S754_zero false; S754_zero false] /\
  fold_left add (probabilities exp32 binary32.mul logits) (of_int 0) = S754_nan.
Proof.
  intros Hinf Hone. cbv zeta. unfold probabilities, softmax. cbn [map].
  rewrite Hinf, Hone. vm_compute. repeat split.
Qed.

Lemma softmax_overflow_witness :
  Samples.coarse_exp (binary32.of_Z 1000) = S754_infinity false /\
  Samples.coarse_exp (binary32.of_Z 0) = binary32.of_Z 1 /\
  fold_left add
    (probabilities Samples.coarse_exp binary32.mul (map binary32.of_Z [1000; 0; 0; 0]))
    (of_int 0) = S754_nan.
Proof.
  split; [vm_compute; reflexivity |]. split; [vm_compute; reflexivity |].
  destruct (softmax_overflow Samples.coarse_exp) as (_ & _ & _ & _ & Hsum);
    [vm_compute; reflexivity | vm_compute; reflexivity | exact Hsum].
Defined.

(** * Further properties *)

(** ** The crop box, again *)

(** Exchanging width and height exchanges the axes of the crop box: the box
    of the transposed image is the transposed box. *)
Theorem crop_box_transposed (width height : Z) :
  crop_box height width =
    (box_top (crop_box width height), box_left (crop_box width height),
     box_bottom (crop_box width height), box_right (crop_box width height)).
Proof.
  destruct (Z.lt_trichotomy width height) as [Hlt | [-> | Hgt]].
  - rewrite (crop_box_wide height width) by lia.
    rewrite (crop_box_tall width height) by lia. reflexivity.
  - rewrite crop_box_tall by lia. cbn [box_left box_top box_right box_bottom].
    replace ((height - height) / 2 + height) with height
      by (rewrite Z.sub_diag; reflexivity).
    rewrite Z.sub_diag. reflexivity.
  - rewrite (crop_box_tall height width) by lia.
    rewrite (crop_box_wide width height) by lia. reflexivity.
Qed.

(** Cropping is idempotent: the box computed for the cropped image is the
    whole cropped image, and cropping it again keeps its size and pixels. *)
Theorem crop_twice (im : PIL.Image) (width height : Z) :
  PIL.size im = (width, height) ->
  let cropped := PIL.crop im (crop_box width height) in
  let box := crop_box (fst (PIL.size cropped)) (snd (PIL.size cropped)) in
  box = (0, 0, fst (PIL.size cropped), snd (PIL.size cropped)) /\
  PIL.size (PIL.crop cropped box) = PIL.size cropped /\
  forall x y c,
    PIL.getpixel (PIL.crop cropped box) x y c = PIL.getpixel cropped x y c.
Proof.
  intros _. cbv zeta.
  assert (Hsquare : exists side,
            PIL.size (PIL.crop im (crop_box width height)) = (side, side)).
  { destruct (Z_gt_le_dec width height) as [Hgt | Hle].
    - rewrite crop_box_wide by assumption. exists height.
      cbn [PIL.crop PIL.size]. f_equal; lia.
    - rewrite crop_box_tall by assumption. exists width.
      cbn [PIL.crop PIL.size]. f_equal; lia. }
  destruct Hsquare as [side Hside]. rewrite Hside. cbn [fst snd].
  rewrite crop_box_tall by lia.
  replace ((side - side) / 2) with 0 by (rewrite Z.sub_diag; reflexivity).
  cbn [Z.add]. split; [reflexivity |].
  split.
  - cbn [PIL.crop PIL.size]. f_equal; lia.
  - intros x y c. cbn [PIL.crop PIL.getpixel]. rewrite !Z.add_0_r. reflexivity.
Qed.

Lemma crop_twice_witness :
  crop_box 480 480 = (0, 0, 480, 480).
Proof.
  exact (proj1 (crop_twice Examples.photo 640 480 eq_refl)).
Defined.

(** ** The preprocessor, again *)

Lemma outcome_by_bands {F : Type} `{Arith F}
    (resample : PIL.filter) (fs : filesystem) (path : string) (im : PIL.Image) :
  Image_open fs path = Ok im ->
  result_map np.shape (image_file_to_tensor resample fs path) =
    if PIL.bands im =? 1 then Raise ValueError
    else if PIL.bands im <? 3 then Raise IndexError
    else Ok [PIL.bands im; 224; 224].
Proof.
  intros Hopen. unfold image_file_to_tensor. rewrite Hopen. cbn [bind].
  rewrite <- (crop_and_resize_bands resample im).
  set (image := crop_and_resize resample im).
  destruct (PIL.bands image =? 1) eqn:Hone.
  - apply Z.eqb_eq in Hone. unfold image_to_tensor.
    rewrite transpose_array_one_band by exact Hone. reflexivity.
  - apply Z.eqb_neq in Hone. destruct (PIL.bands image <? 3) eqn:Hfew.
    + apply Z.ltb_lt in Hfew. unfold image_to_tensor.
      destruct (transpose_array image 224 224 (crop_and_resize_size resample im) Hone)
        as (p & -> & Hsh & _).
      cbn [bind].
      destruct (Z_le_gt_dec (PIL.bands image) 0) as [Hnone | Hsome].
      { rewrite (normalize_channel_missing _ 0 _ _ (PIL.bands image) [224; 224]);
          [reflexivity | exact Hsh | lia | lia]. }
      destruct (normalize_channel_ok (np.true_divide p (of_decimal 255)) 0
                  (485 # 1000) (229 # 1000) (PIL.bands image) [224; 224])
        as (p0 & -> & Hsh0 & _); [exact Hsh | lia |].
      cbn [bind].
      destruct (normalize_channel_ok p0 1 (456 # 1000) (224 # 1000)
                  (PIL.bands image) [224; 224])
        as (p1 & -> & Hsh1 & _); [exact Hsh0 | lia |].
      cbn [bind].
      rewrite (normalize_channel_missing _ 2 _ _ (PIL.bands image) [224; 224]);
        [reflexivity | exact Hsh1 | lia | lia].
    + apply Z.ltb_ge in Hfew.
      destruct (image_to_tensor_ok image 224 224 (crop_and_resize_size resample im) Hfew)
        as (t & -> & Hsh & _).
      cbn [result_map]. rewrite Hsh. reflexivity.
Qed.

Lemma outcome_by_file {F : Type} `{Arith F}
    (resample : PIL.filter) (fs : filesystem) (path : string) :
  result_map np.shape (image_file_to_tensor resample fs path)
    = expected_outcome fs path.
Proof.
  unfold expected_outcome.
  destruct (content fs path) as [[im | im | |] |] eqn:Hcontent.
  - destruct (PIL.decompression_bomb (PIL.size im)) eqn:Hbomb.
    + unfold image_file_to_tensor, Image_open, open_file.
      rewrite Hcontent, Hbomb. reflexivity.
    + apply outcome_by_bands. unfold Image_open, open_file.
      rewrite Hcontent, Hbomb. reflexivity.
  - unfold image_file_to_tensor, Image_open, open_file.
    rewrite Hcontent. destruct (PIL.decompression_bomb (PIL.size im)); reflexivity.
  - unfold image_file_to_tensor, Image_open, open_file. rewrite Hcontent. reflexivity.
  - unfold image_file_to_tensor, Image_open, open_file. rewrite Hcontent. reflexivity.
  - unfold image_file_to_tensor, Image_open, open_file. rewrite Hcontent. reflexivity.
Qed.

(** When opening or decoding the file raises, the preprocessor raises that
    exception.  When the file opens and decodes, its size and its pixels
    decide nothing: an image of one band raises [ValueError] (the transpose),
    an image of two bands [IndexError] (channel 2), and an image of three
    bands or more gives a tensor of shape (bands, 224, 224). *)
Theorem preprocessor_outcome {F : Type} `{Arith F}
    (resample : PIL.filter) (fs : filesystem) (path : string) :
  match Image_open fs path with
  | Ok im =>
      result_map np.shape (image_file_to_tensor resample fs path) =
        if PIL.bands im =? 1 then Raise ValueError
        else if PIL.bands im <? 3 then Raise IndexError
        else Ok [PIL.bands im; 224; 224]
  | Raise e => image_file_to_tensor resample fs path = Raise e
  end.
Proof.
  destruct (Image_open fs path) as [im | e] eqn:Hopen.
  - apply outcome_by_bands. exact Hopen.
  - unfold image_file_to_tensor. rewrite Hopen. reflexivity.
Qed.

Lemma preprocessor_outcome_witness :
  result_map np.shape
    (image_file_to_tensor (F := Q) PIL.NEAREST Samples.odd_fs "data/images/dog/grey.png")
    = Raise ValueError /\
  result_map np.shape
    (image_file_to_tensor (F := Q) PIL.NEAREST Samples.odd_fs "data/images/dog/la.png")
    = Raise IndexError /\
  image_file_to_tensor (F := Q) PIL.NEAREST Samples.broken_fs "inference_artifacts/cut.jpg"
    = Raise OSError /\
  image_file_to_tensor (F := Q) PIL.NEAREST Samples.broken_fs "inference_artifacts/huge.png"
    = Raise DecompressionBombError.
Proof.
  split; [| split; [| split]].
  - exact (preprocessor_outcome PIL.NEAREST Samples.odd_fs "data/images/dog/grey.png").
  - exact (preprocessor_outcome PIL.NEAREST Samples.odd_fs "data/images/dog/la.png").
  - exact (preprocessor_outcome PIL.NEAREST Samples.broken_fs "inference_artifacts/cut.jpg").
  - exact (preprocessor_outcome PIL.NEAREST Samples.broken_fs "inference_artifacts/huge.png").
Defined.

(** The tensor of an image of three bands or more, item by item: channel
    [c], row [y], column [x] comes from band [c] of the pixel at column [x],
    row [y] of the resized image; the first three channels are normalized,
    any further channel (an alpha band) is only divided by 255. *)
Theorem tensor_items {F : Type} `{Arith F}
    (resample : PIL.filter) (fs : filesystem) (path : string) (im : PIL.Image) :
  Image_open fs path = Ok im ->
  3 <= PIL.bands im ->
  exists t : np.ndarray F,
    image_file_to_tensor resample fs path = Ok t /\
    forall c y x,
      0 <= c ->
      np.item t [c; y; x] =
        if c <? 3
        then normalized c (PIL.getpixel (crop_and_resize resample im) x y c)
        else div (of_int (PIL.getpixel (crop_and_resize resample im) x y c))
                 (of_decimal 255).
Proof.
  intros Hopen Hbands. unfold image_file_to_tensor. rewrite Hopen. cbn [bind].
  set (image := crop_and_resize resample im).
  assert (Himage : 3 <= PIL.bands image)
    by (subst image; rewrite crop_and_resize_bands; exact Hbands).
  unfold image_to_tensor.
  destruct (transpose_array image 224 224 (crop_and_resize_size resample im))
    as (p & -> & Hsh & Hit); [lia |].
  cbn [bind].
  destruct (normalize_channel_ok (np.true_divide p (of_decimal 255)) 0
              (485 # 1000) (229 # 1000) (PIL.bands image) [224; 224])
    as (p0 & -> & Hsh0 & Hit0); [exact Hsh | lia |].
  cbn [bind].
  destruct (normalize_channel_ok p0 1 (456 # 1000) (224 # 1000)
              (PIL.bands image) [224; 224])
    as (p1 & -> & Hsh1 & Hit1); [exact Hsh0 | lia |].
  cbn [bind].
  destruct (normalize_channel_ok p1 2 (406 # 1000) (225 # 1000)
              (PIL.bands image) [224; 224])
    as (p2 & -> & Hsh2 & Hit2); [exact Hsh1 | lia |].
  cbn [bind]. exists p2. split; [reflexivity |].
  intros c y x Hc. destruct (c <? 3) eqn:Hlt.
  - apply Z.ltb_lt in Hlt. unfold normalized.
    assert (Hcases : c = 0 \/ c = 1 \/ c = 2) by lia.
    destruct Hcases as [-> | [-> | ->]];
      rewrite Hit2; cbn [Z.eqb Pos.eqb];
      rewrite Hit1; cbn [Z.eqb Pos.eqb];
      rewrite Hit0; cbn [Z.eqb Pos.eqb np.true_divide np.item];
      rewrite Hit; reflexivity.
  - apply Z.ltb_ge in Hlt.
    rewrite Hit2. destruct (c =? 2) eqn:E2; [lia |].
    rewrite Hit1. destruct (c =? 1) eqn:E1; [lia |].
    rewrite Hit0. destruct (c =? 0) eqn:E0; [lia |].
    cbn [np.true_divide np.item]. rewrite Hit. reflexivity.
Qed.

Lemma tensor_items_witness :
  exists t : np.ndarray Q,
    image_file_to_tensor PIL.NEAREST Samples.odd_fs "data/images/dog/rgba.png" = Ok t /\
    np.item t [3; 10; 20] = (255 / 255)%Q.
Proof.
  destruct (tensor_items (F := Q) PIL.NEAREST Samples.odd_fs "data/images/dog/rgba.png"
              Examples.rgba_png eq_refl)
    as (t & Ht & Hitems).
  - vm_compute. discriminate.
  - exists t. split; [exact Ht |].
    rewrite (Hitems 3 10 20) by lia. reflexivity.
Defined.

(** [predict] hands the session a batch of one: building the input raises
    what the preprocessor raises for the file, and otherwise the input has
    shape (1, bands, 224, 224) and holds the tensor of the image. *)
Theorem predict_input_batch_of_one {F : Type} `{Arith F}
    (resample : PIL.filter) (fs : filesystem) (test_file : string) :
  result_map np.shape (predict_input resample fs test_file)
    = result_map (cons 1) (expected_outcome fs test_file) /\
  match image_file_to_tensor resample fs test_file with
  | Ok tensor =>
      exists input : np.ndarray F,
        predict_input resample fs test_file = Ok input /\
        forall idx, np.item input (0 :: idx) = np.item tensor idx
  | Raise e => predict_input resample fs test_file = Raise e
  end.
Proof.
  rewrite <- (outcome_by_file resample fs test_file). unfold predict_input.
  destruct (image_file_to_tensor resample fs test_file) as [tensor | e];
    [| split; reflexivity].
  cbn [bind]. unfold np.stack. cbn [forallb].
  rewrite shape_eqb_refl. cbn [andb]. split; [reflexivity |].
  eexists. split; reflexivity.
Qed.

(** ** binary32 values of the normalization *)

Lemma range_in (n i : Z) : 0 <= i < n -> In i (range n).
Proof.
  intros Hi. unfold range. apply in_map_iff. exists (Z.to_nat i).
  split; [lia |]. apply in_seq. lia.
Qed.

Lemma binary32_normalization_table :
  forallb
    (fun c =>
       forallb
         (fun v =>
            binary32.is_finite (normalized (F := spec_float) c v)
            && Qle_bool (binary32_error c v) (1 # 2000000)
            && Qle_bool (- (2118 # 1000))
                 (binary32.to_Q (normalized (F := spec_float) c v))
            && Qle_bool (binary32.to_Q (normalized (F := spec_float) c v))
                 (2641 # 1000))
         (range 256))
    (range 3) = true.
Proof. vm_compute. reflexivity. Qed.

(** In binary32, the arithmetic of the tensor, every 8-bit pixel value is
    normalized in each of the three channels to a finite number that is
    within 1/2000000 of the exact quotient and lies between -2.118 and
    2.641. *)
Theorem binary32_normalization_bounds (c v : Z) :
  0 <= c < 3 ->
  0 <= v <= 255 ->
  binary32.is_finite (normalized (F := spec_float) c v) = true /\
  (binary32_error c v <= 1 # 2000000)%Q /\
  (- (2118 # 1000) <= binary32.to_Q (normalized (F := spec_float) c v))%Q /\
  (binary32.to_Q (normalized (F := spec_float) c v) <= 2641 # 1000)%Q.
Proof.
  intros Hc Hv. pose proof binary32_normalization_table as Htable.
  rewrite forallb_forall in Htable.
  specialize (Htable c (range_in 3 c Hc)). cbv beta in Htable.
  rewrite forallb_forall in Htable.
  specialize (Htable v (range_in 256 v ltac:(lia))). cbv beta in Htable.
  apply andb_prop in Htable. destruct Htable as [Htable Hhi].
  apply andb_prop in Htable. destruct Htable as [Htable Hlo].
  apply andb_prop in Htable. destruct Htable as [Hfinite Herr].
  repeat split; [exact Hfinite | | |]; apply Qle_bool_iff; assumption.
Qed.

Lemma binary32_normalization_bounds_witness :
  binary32.is_finite (normalized (F := spec_float) 2 255) = true /\
  (binary32.to_Q (normalized (F := spec_float) 2 255) <= 2641 # 1000)%Q.
Proof.
  destruct (binary32_normalization_bounds 2 255) as (Hfinite & _ & _ & Hhi);
    [lia | lia |].
  split; [exact Hfinite | exact Hhi].
Defined.

(** ** The dataset indexer, again *)

Lemma load_dataset_files_getitem (fs : filesystem) (animal : string) :
  dict_getitem (load_dataset_files fs) animal =
    if in_class_list animal
    then Ok (glob.glob_star fs ("data/images/" ++ animal)%string)
    else Raise KeyError.
Proof.
  rewrite load_dataset_files_eq. unfold in_class_list.
  cbn [dict_getitem existsb].
  destruct (String.eqb animal "dog") eqn:Edog;
    [apply String.eqb_eq in Edog; subst; reflexivity |].
  destruct (String.eqb animal "cat") eqn:Ecat;
    [apply String.eqb_eq in Ecat; subst; reflexivity |].
  destruct (String.eqb animal "elephant") eqn:Eelephant;
    [apply String.eqb_eq in Eelephant; subst; reflexivity |].
  destruct (String.eqb animal "cow") eqn:Ecow;
    [apply String.eqb_eq in Ecow; subst; reflexivity |].
  reflexivity.
Qed.

(** The dict of the dataset has the four classes as keys, in the order dog,
    cat, elephant, cow, whatever the file system holds; looking up one of
    them gives the listing of its directory, and any other key raises
    [KeyError]. *)
Theorem dataset_keys_and_lookup (fs : filesystem) (animal : string) :
  keys (load_dataset_files fs) = ["dog"; "cat"; "elephant"; "cow"]%string /\
  dict_getitem (load_dataset_files fs) animal =
    if in_class_list animal
    then Ok (glob.glob_star fs ("data/images/" ++ animal)%string)
    else Raise KeyError.
Proof.
  split; [reflexivity | apply load_dataset_files_getitem].
Qed.

(** The files listed for a class are exactly the entries of the class
    directory that are not hidden, each under the directory's path: no hidden
    file and no file of another directory is ever listed, and none that is
    not hidden is left out. *)
Theorem dataset_lists_visible_entries (fs : filesystem) (animal : string)
    (files : list string) (path : string) :
  dict_getitem (load_dataset_files fs) animal = Ok files ->
  (In path files <->
   exists names name,
     listdir fs ("data/images/" ++ animal)%string = Some names /\
     In name names /\
     ishidden name = false /\
     path = ("data/images/" ++ animal ++ "/" ++ name)%string).
Proof.
  intros Hfiles. rewrite load_dataset_files_getitem in Hfiles.
  destruct (in_class_list animal); [| discriminate].
  assert (Hlist : files = glob.glob_star fs ("data/images/" ++ animal)%string)
    by congruence.
  clear Hfiles. subst files.
  set (dir := ("data/images/" ++ animal)%string).
  unfold glob.glob_star. destruct (listdir fs dir) as [names |].
  - rewrite in_map_iff. split.
    + intros (name & <- & Hin). apply filter_In in Hin. destruct Hin as [Hin Hvis].
      exists names, name. split; [reflexivity |]. split; [exact Hin |].
      split; [| reflexivity].
      destruct (ishidden name); [discriminate | reflexivity].
    + intros (names' & name & [= <-] & Hin & Hvis & ->).
      exists name. split; [reflexivity |].
      apply filter_In. split; [exact Hin |]. rewrite Hvis. reflexivity.
  - split; [intros [] |]. intros (names & name & Hnone & _). discriminate.
Qed.

Lemma dataset_lists_visible_entries_witness :
  In "data/images/dog/grey.png"%string
     ["data/images/dog/grey.png"; "data/images/dog/la.png";
      "data/images/dog/notes.txt"; "data/images/dog/more";
      "data/images/dog/rgba.png"]%string.
Proof.
  apply (proj2 (dataset_lists_visible_entries Samples.odd_fs "dog" _
                  "data/images/dog/grey.png" eq_refl)).
  eexists. exists "grey.png"%string.
  split; [reflexivity |]. split; [cbn; tauto |]. split; reflexivity.
Defined.

(** ** The training loop, again *)

Lemma losses_steps_length {F : Type} (steps : list (event F)) :
  forallb is_step steps = true -> List.length (losses steps) = List.length steps.
Proof.
  induction steps as [| [batch labels loss | epoch loss] steps IH]; cbn;
    [reflexivity | | discriminate].
  intros Hsteps. f_equal. exact (IH Hsteps).
Qed.

Lemma filter_steps {F : Type} (steps : list (event F)) :
  forallb is_step steps = true -> List.filter is_step steps = steps.
Proof.
  induction steps as [| [batch labels loss | epoch loss] steps IH]; cbn;
    [reflexivity | | discriminate].
  intros Hsteps. rewrite IH by exact Hsteps. reflexivity.
Qed.

(** The epochs printed and the steps taken by whole epochs. *)
Lemma printed_whole_epochs {F : Type} `{Arith F} (epochs : list Z) :
  forall done : list (list (event F)),
    Forall (fun steps => forallb is_step steps = true /\
                         Z.of_nat (List.length steps) = num_samples_per_class) done ->
    (List.length done <= List.length epochs)%nat ->
    map fst (printed (List.concat (map (fun p => epoch_events (fst p) (snd p))
                                       (combine epochs done))))
      = firstn (List.length done) (map (fun epoch => epoch + 1) epochs) /\
    List.length (losses (List.concat (map (fun p => epoch_events (fst p) (snd p))
                                          (combine epochs done))))
      = (20 * List.length done)%nat.
Proof.
  induction epochs as [| epoch epochs IH]; intros done Hdone Hlen.
  - destruct done; [split; reflexivity | cbn in Hlen; lia].
  - destruct done as [| steps done]; [split; reflexivity |].
    inversion Hdone as [| ? ? [Hsteps Hn] Hdone']; subst.
    destruct (IH done Hdone') as [IHprinted IHlosses]; [cbn in Hlen; lia |].
    cbn [combine map List.concat fst snd firstn List.length].
    change (epoch_events epoch steps)
      with (steps ++ [Print (epoch + 1) (mean_loss (losses steps))]).
    rewrite !printed_app, !losses_app, !map_app, !length_app.
    rewrite printed_steps by exact Hsteps.
    rewrite losses_steps_length by exact Hsteps.
    rewrite IHprinted, IHlosses. cbn [printed losses flat_map app map fst List.length].
    split; [reflexivity |].
    unfold num_samples_per_class in Hn. lia.
Qed.

(** The epochs printed are the first of 1, 2, 3, 4, 5, as many as there are
    whole epochs of 20 steps; a loop that returns has printed all five after
    100 steps, a loop that raises has printed fewer and stopped within the
    20 steps that follow. *)
Theorem run_progress {F : Type} `{Arith F}
    (resample : PIL.filter) (fs : filesystem) (R : Runtime F) (s0 : state R) :
  exists k : nat,
    map fst (printed (log (snd (run resample fs R s0)))) = firstn k [1; 2; 3; 4; 5] /\
    match fst (run resample fs R s0) with
    | Ok _ =>
        k = 5%nat /\
        List.length (losses (log (snd (run resample fs R s0)))) = 100%nat
    | Raise _ =>
        (k < 5)%nat /\
        (20 * k <= List.length (losses (log (snd (run resample fs R s0))))
         <= 20 * k + 20)%nat
    end.
Proof.
  unfold run, training_loop.
  destruct (outer_loop_log resample fs R (load_dataset_files fs) (range num_epochs)
              {| rt := s0; log := [] |})
    as (done & rest & Hlog & Hdone & Hrest & Hres).
  cbn [log app] in Hlog. rewrite Hlog. clear Hlog.
  exists (List.length done).
  assert (Hlen : (List.length done <= List.length (range num_epochs))%nat).
  { destruct (fst (for_M R (range num_epochs)
                     (train_epoch resample fs R (load_dataset_files fs)) tt
                     {| rt := s0; log := [] |})); lia. }
  destruct (printed_whole_epochs (range num_epochs) done Hdone Hlen)
    as [Hprinted Hlosses].
  rewrite printed_app, losses_app, map_app, length_app.
  rewrite (printed_steps rest Hrest), app_nil_r, Hprinted, Hlosses.
  rewrite (losses_steps_length rest Hrest).
  split; [reflexivity |].
  destruct (fst (for_M R (range num_epochs)
                   (train_epoch resample fs R (load_dataset_files fs)) tt
                   {| rt := s0; log := [] |})).
  - destruct Hres as [Hn ->]. rewrite Hn. split; reflexivity.
  - destruct Hres as [Hn Hrestlen]. change (List.length (range num_epochs)) with 5%nat in Hn.
    unfold num_samples_per_class in Hrestlen. split; lia.
Qed.

(** *** A dataset that is large enough *)

(** With at least 20 listed files in each class, the first 20 of each class
    pictures of three bands that open and decode, and a runtime that, from
    the states of an invariant that holds at the start, takes [train()], the
    forward and backward pass on every batch of shape (4, 3, 224, 224) with
    the labels 0 to 3, the optimizer step and the reset of the gradients, and
    stays in the invariant, the loop runs to its end: it returns without an
    exception.  The files after the first 20 of a class are never opened. *)
Theorem run_returns {F : Type} `{Arith F}
    (resample : PIL.filter) (fs : filesystem) (R : Runtime F) (s0 : state R)
    (Inv : state R -> Prop) :
  Inv s0 ->
  runtime_accepts R Inv ->
  all_rgb fs (first_samples (load_dataset_files fs)) = true ->
  num_samples_per_class <= fewest_samples (load_dataset_files fs) ->
  fst (run resample fs R s0) = Ok tt.
Proof.
  intros Hinv Hrt Hrgb Henough.
  exact (run_completes resample fs R Inv Hrt Hrgb Henough s0 Hinv).
Qed.

Lemma run_returns_witness :
  all_rgb Samples.full_and_more_fs (load_dataset_files Samples.full_and_more_fs) = false /\
  fst (run PIL.NEAREST Samples.full_and_more_fs Samples.strict_runtime 0) = Ok tt.
Proof.
  split; [vm_compute; reflexivity |].
  apply (run_returns PIL.NEAREST Samples.full_and_more_fs Samples.strict_runtime 0
           (fun _ => True)).
  - exact I.
  - split; [intros s _; exact I |]. split; [| split; intros s _; exact I].
    intros s batch labels _ Hshape _. cbn [forward Samples.strict_runtime].
    rewrite Hshape. exact I.
  - vm_compute. reflexivity.
  - vm_compute. discriminate.
Defined.


(** *** The order of the batches *)

(** [steps] follow the start of [indices], one step for each index. *)
Lemma prefix_nil {A B : Type} (P : A -> B -> Prop) (l : list A) :
  Forall2 P (firstn (@List.length B []) l) [].
Proof. constructor. Qed.

Lemma prefix_length {A B : Type} (P : A -> B -> Prop) (l : list A) (s : list B) :
  Forall2 P (firstn (List.length s) l) s -> (List.length s <= List.length l)%nat.
Proof.
  intros Hs. apply Forall2_length in Hs. rewrite length_firstn in Hs. lia.
Qed.

Lemma prefix_app_whole {A B : Type} (P : A -> B -> Prop)
    (l1 l2 : list A) (s1 s2 : list B) :
  Forall2 P (firstn (List.length s1) l1) s1 ->
  List.length s1 = List.length l1 ->
  Forall2 P (firstn (List.length s2) l2) s2 ->
  Forall2 P (firstn (List.length (s1 ++ s2)) (l1 ++ l2)) (s1 ++ s2).
Proof.
  intros H1 Hlen H2. rewrite length_app, firstn_app.
  apply Forall2_app.
  - rewrite firstn_all2 by lia. rewrite Hlen, firstn_all in H1. exact H1.
  - replace (List.length s1 + List.length s2 - List.length l1)%nat
      with (List.length s2) by lia.
    exact H2.
Qed.

Lemma prefix_app_part {A B : Type} (P : A -> B -> Prop)
    (l1 l2 : list A) (s1 : list B) :
  Forall2 P (firstn (List.length s1) l1) s1 ->
  Forall2 P (firstn (List.length s1) (l1 ++ l2)) s1.
Proof.
  intros H1. pose proof (prefix_length P l1 s1 H1) as Hlen.
  rewrite firstn_app.
  replace (List.length s1 - List.length l1)%nat with 0%nat by lia.
  cbn [firstn]. rewrite app_nil_r. exact H1.
Qed.

Section Schedule.
Context {F : Type} `{Arith F}.
Variable resample : PIL.filter.
Variable fs : filesystem.
Variable R : Runtime F.
Variable animals : dict (list string).

Lemma train_step_schedule (loss : F) (index : Z) (w : world R) :
  exists steps : list (event F),
    List.filter is_step (log (snd (train_step resample fs R animals loss index w)))
      = List.filter is_step (log w) ++ steps /\
    Forall2 (step_at resample fs animals) (firstn (List.length steps) [index]) steps /\
    (is_ok (fst (train_step resample fs R animals loss index w)) = true ->
     List.length steps = 1%nat).
Proof.
  unfold train_step, bindM, lift, call_model, external, ret.
  destruct (build_batch resample fs animals index) as [[tensors labels] | e] eqn:Hbuild;
    [| exists []; rewrite app_nil_r; cbn; repeat split; [constructor | discriminate]].
  destruct (np.stack tensors) as [b | e] eqn:Hstack;
    [| exists []; rewrite app_nil_r; cbn; repeat split; [constructor | discriminate]].
  destruct (forward R (rt w) b labels) as [[l s] | e];
    [| exists []; rewrite app_nil_r; cbn; repeat split; [constructor | discriminate]].
  exists [Step b labels l]. cbn [rt log].
  assert (Hat : Forall2 (step_at resample fs animals)
                  (firstn (List.length [Step b labels l]) [index]) [Step b labels l]).
  { cbn. constructor; [| constructor]. exists tensors. split; assumption. }
  destruct (step R s) as [s1 | e]; cbn [rt log fst snd].
  - destruct (lazy_reset_grad R s1) as [s2 | e]; cbn [rt log fst snd];
      rewrite filter_app; cbn [List.filter is_step];
      (split; [reflexivity | split; [exact Hat | reflexivity]]).
  - rewrite filter_app. cbn [List.filter is_step].
    split; [reflexivity | split; [exact Hat | reflexivity]].
Qed.

Lemma inner_loop_schedule (indices : list Z) :
  forall (loss : F) (w : world R),
  exists steps : list (event F),
    List.filter is_step
      (log (snd (for_M R indices (train_step resample fs R animals) loss w)))
      = List.filter is_step (log w) ++ steps /\
    Forall2 (step_at resample fs animals) (firstn (List.length steps) indices) steps /\
    (is_ok (fst (for_M R indices (train_step resample fs R animals) loss w)) = true ->
     List.length steps = List.length indices).
Proof.
  induction indices as [| index indices IH]; intros loss w.
  - exists []. rewrite app_nil_r. cbn. repeat split. constructor.
  - cbn [for_M]. unfold bindM.
    destruct (train_step_schedule loss index w) as (steps1 & Hlog1 & Hat1 & Hok1).
    destruct (train_step resample fs R animals loss index w) as [[loss' | e] w'];
      cbn [fst snd] in *.
    + destruct (IH loss' w') as (steps2 & Hlog2 & Hat2 & Hok2).
      exists (steps1 ++ steps2). split; [| split].
      * rewrite Hlog2, Hlog1, <- app_assoc. reflexivity.
      * apply (prefix_app_whole _ [index] indices);
          [exact Hat1 | exact (Hok1 eq_refl) | exact Hat2].
      * intros Hok. rewrite length_app, (Hok1 eq_refl), (Hok2 Hok). reflexivity.
    + exists steps1. split; [exact Hlog1 |]. split; [| discriminate].
      apply (prefix_app_part _ [index] indices). exact Hat1.
Qed.

Lemma train_epoch_schedule (epoch : Z) (w : world R) :
  exists steps : list (event F),
    List.filter is_step (log (snd (train_epoch resample fs R animals tt epoch w)))
      = List.filter is_step (log w) ++ steps /\
    Forall2 (step_at resample fs animals)
      (firstn (List.length steps) (range num_samples_per_class)) steps /\
    (is_ok (fst (train_epoch resample fs R animals tt epoch w)) = true ->
     List.length steps = List.length (range num_samples_per_class)).
Proof.
  unfold train_epoch, bindM, external, print.
  destruct (train R (rt w)) as [s | e];
    [| exists []; rewrite app_nil_r; cbn; repeat split; [constructor | discriminate]].
  destruct (inner_loop_schedule (range num_samples_per_class) (of_int 0)
              {| rt := s; log := log w |}) as (steps & Hlog & Hat & Hok).
  exists steps.
  destruct (for_M R (range num_samples_per_class) (train_step resample fs R animals)
              (of_int 0) {| rt := s; log := log w |}) as [[loss | e] w'];
    cbn [fst snd log] in *.
  - rewrite filter_app. cbn [List.filter is_step]. rewrite app_nil_r.
    split; [exact Hlog |]. split; [exact Hat | exact Hok].
  - split; [exact Hlog |]. split; [exact Hat | discriminate].
Qed.

Lemma outer_loop_schedule (epochs : list Z) :
  forall w : world R,
  exists steps : list (event F),
    List.filter is_step
      (log (snd (for_M R epochs (train_epoch resample fs R animals) tt w)))
      = List.filter is_step (log w) ++ steps /\
    Forall2 (step_at resample fs animals)
      (firstn (List.length steps)
         (List.concat (map (fun _ => range num_samples_per_class) epochs)))
      steps /\
    (is_ok (fst (for_M R epochs (train_epoch resample fs R animals) tt w)) = true ->
     List.length steps
     = List.length (List.concat (map (fun _ => range num_samples_per_class) epochs))).
Proof.
  induction epochs as [| epoch epochs IH]; intros w.
  - exists []. rewrite app_nil_r. cbn. repeat split. constructor.
  - cbn [for_M map List.concat]. unfold bindM.
    destruct (train_epoch_schedule epoch w) as (steps1 & Hlog1 & Hat1 & Hok1).
    destruct (train_epoch resample fs R animals tt epoch w) as [[[] | e] w'];
      cbn [fst snd] in *.
    + destruct (IH w') as (steps2 & Hlog2 & Hat2 & Hok2).
      exists (steps1 ++ steps2). split; [| split].
      * rewrite Hlog2, Hlog1, <- app_assoc. reflexivity.
      * apply prefix_app_whole; [exact Hat1 | exact (Hok1 eq_refl) | exact Hat2].
      * intros Hok. rewrite !length_app, (Hok1 eq_refl), (Hok2 Hok). reflexivity.
    + exists steps1. split; [exact Hlog1 |]. split; [| discriminate].
      apply prefix_app_part. exact Hat1.
Qed.

End Schedule.

Lemma schedule_table :
  forallb
    (fun k =>
       match nth_error schedule k with
       | Some index => index =? Z.of_nat k mod 20
       | None => false
       end)
    (seq 0 100) = true.
Proof. vm_compute. reflexivity. Qed.

(** The module is called on the batches of the sample indices 0 to 19 in
    this order, again in every epoch: the k-th training step of a run, in
    whatever epoch it falls, hands the module the stack of the batch built
    for the index k mod 20 and its labels.  Nothing is shuffled, and no file
    of index 20 or more is ever used.  A run that returns has made all 100
    steps. *)
Theorem batches_follow_schedule {F : Type} `{Arith F}
    (resample : PIL.filter) (fs : filesystem) (R : Runtime F) (s0 : state R) :
  let steps := List.filter is_step (log (snd (run resample fs R s0))) in
  Forall2 (step_at resample fs (load_dataset_files fs))
    (firstn (List.length steps) schedule) steps /\
  List.length schedule = 100%nat /\
  (forall k, (k < 100)%nat -> nth_error schedule k = Some (Z.of_nat k mod 20)) /\
  (fst (run resample fs R s0) = Ok tt -> List.length steps = 100%nat).
Proof.
  cbv zeta. unfold run, training_loop.
  destruct (outer_loop_schedule resample fs R (load_dataset_files fs) (range num_epochs)
              {| rt := s0; log := [] |}) as (steps & Hlog & Hat & Hok).
  cbn [log List.filter app] in Hlog. rewrite Hlog.
  split; [exact Hat |]. split; [reflexivity |]. split.
  - intros k Hk. pose proof schedule_table as Htable.
    rewrite forallb_forall in Htable.
    specialize (Htable k). cbv beta in Htable.
    destruct (nth_error schedule k) as [index |];
      [| discriminate Htable; apply in_seq; lia].
    f_equal. apply Z.eqb_eq. apply Htable. apply in_seq. lia.
  - intros Hrun. rewrite Hrun in Hok. exact (Hok eq_refl).
Qed.

Lemma batches_follow_schedule_witness :
  List.length
    (List.filter is_step
       (log (snd (run PIL.NEAREST Examples.full_fs Examples.counting_runtime 0))))
  = 100%nat.
Proof.
  apply (proj2 (proj2 (proj2
    (batches_follow_schedule PIL.NEAREST Examples.full_fs Examples.counting_runtime 0)))).
  vm_compute. reflexivity.
Defined.

(** *** The shape of the batches *)

Lemma list_getitem_In {A : Type} (l : list A) (i : Z) (a : A) :
  list_getitem l i = Ok a -> In a l.
Proof.
  unfold list_getitem.
  destruct ((0 <=? (if i <? 0 then i + Z.of_nat (List.length l) else i))
            && ((if i <? 0 then i + Z.of_nat (List.length l) else i)
                <? Z.of_nat (List.length l))); [| discriminate].
  destruct (nth_error l _) as [a' |] eqn:Hnth; [| discriminate].
  intros [= <-]. eapply nth_error_In. exact Hnth.
Qed.

Lemma stack_shapes {F : Type} (arrays : list (np.ndarray F)) (b : np.ndarray F) :
  np.stack arrays = Ok b ->
  exists a0, hd_error arrays = Some a0 /\
    np.shape b = Z.of_nat (List.length arrays) :: np.shape a0 /\
    forall a, In a arrays -> np.shape a = np.shape a0.
Proof.
  unfold np.stack. destruct arrays as [| a0 arrays]; [discriminate |].
  destruct (forallb (fun a => np.shape_eqb (np.shape a) (np.shape a0)) (a0 :: arrays))
    eqn:Hall; [| discriminate].
  intros [= <-]. exists a0. split; [reflexivity |]. split; [reflexivity |].
  intros a Hin. rewrite forallb_forall in Hall.
  apply shape_eqb_eq. apply Hall. exact Hin.
Qed.

Section BatchShape.
Context {F : Type} `{Arith F}.
Variable resample : PIL.filter.
Variable fs : filesystem.
Hypothesis images_ok : all_rgb fs (load_dataset_files fs) = true.

Lemma class_tensor_rgb_shape (animal : string) (index : Z) (t : np.ndarray F) :
  class_tensor resample fs (load_dataset_files fs) animal index = Ok t ->
  np.shape t = [3; 224; 224].
Proof.
  unfold class_tensor.
  destruct (dict_getitem (load_dataset_files fs) animal) as [files |] eqn:Hfiles;
    [| discriminate].
  cbn [bind].
  destruct (list_getitem files index) as [path |] eqn:Hpath; [| discriminate].
  cbn [bind]. intros Ht.
  apply dict_getitem_In in Hfiles. apply list_getitem_In in Hpath.
  pose proof images_ok as Hrgb. unfold all_rgb in Hrgb.
  rewrite forallb_forall in Hrgb. specialize (Hrgb _ Hfiles). cbn beta iota in Hrgb.
  rewrite forallb_forall in Hrgb. specialize (Hrgb _ Hpath).
  destruct (Image_open fs path) as [im |] eqn:Hopen; [| discriminate].
  apply Z.eqb_eq in Hrgb.
  destruct (image_file_to_tensor_shape resample fs path im t Hopen Ht) as [_ Hshape].
  rewrite Hshape, Hrgb. reflexivity.
Qed.

Lemma step_built_shape (ev : event F) :
  step_built resample fs (load_dataset_files fs) ev ->
  match ev with
  | Step batch labels _ =>
      np.shape batch = [4; 3; 224; 224] /\ labels = [0; 1; 2; 3]
  | Print _ _ => True
  end.
Proof.
  destruct ev as [batch labels loss | epoch loss]; [| intros _; exact I].
  intros (index & tensors & _ & Hbuild & Hstack).
  rewrite build_batch_unfold in Hbuild.
  destruct (class_tensor resample fs (load_dataset_files fs) "dog" index)
    as [td |] eqn:Hd; [cbn [bind] in Hbuild | discriminate].
  destruct (class_tensor resample fs (load_dataset_files fs) "cat" index)
    as [tc |]; [cbn [bind] in Hbuild | discriminate].
  destruct (class_tensor resample fs (load_dataset_files fs) "elephant" index)
    as [te |]; [cbn [bind] in Hbuild | discriminate].
  destruct (class_tensor resample fs (load_dataset_files fs) "cow" index)
    as [tw |]; [cbn [bind] in Hbuild | discriminate].
  injection Hbuild as <- <-. split; [| reflexivity].
  destruct (stack_shapes _ _ Hstack) as (a0 & Hhd & Hshape & _).
  cbn in Hhd. injection Hhd as <-.
  rewrite Hshape, (class_tensor_rgb_shape "dog" index td Hd). reflexivity.
Qed.

End BatchShape.

(** When every listed file is a picture of three bands, every training step
    of every run, whether the run returns or raises later, hands the module
    a batch of shape (4, 3, 224, 224) and the labels 0, 1, 2, 3. *)
Theorem batches_are_4_3_224_224 {F : Type} `{Arith F}
    (resample : PIL.filter) (fs : filesystem) (R : Runtime F) (s0 : state R) :
  all_rgb fs (load_dataset_files fs) = true ->
  Forall
    (fun ev =>
       match ev with
       | Step batch labels _ =>
           np.shape batch = [4; 3; 224; 224] /\ labels = [0; 1; 2; 3]
       | Print _ _ => True
       end)
    (log (snd (run resample fs R s0))).
Proof.
  intros Hrgb.
  assert (Hbuilt : Forall (step_built resample fs (load_dataset_files fs))
                     (log (snd (run resample fs R s0)))).
  { unfold run, training_loop. apply outer_loop_built. constructor. }
  eapply Forall_impl; [| exact Hbuilt].
  intros ev Hev. apply (step_built_shape resample fs Hrgb). exact Hev.
Qed.

Lemma batches_are_4_3_224_224_witness :
  Forall
    (fun ev : event Q =>
       match ev with
       | Step batch labels _ =>
           np.shape batch = [4; 3; 224; 224] /\ labels = [0; 1; 2; 3]
       | Print _ _ => True
       end)
    (log (snd (run PIL.NEAREST Examples.short_fs Examples.counting_runtime 0))).
Proof.
  apply batches_are_4_3_224_224. vm_compute. reflexivity.
Defined.

(** *** Samples of different shapes *)

(** When the four samples of an index are all accepted by the preprocessor
    but their tensors do not have one shape (a picture with an alpha band
    among pictures without), the training step raises [ValueError] when the
    batch is stacked: the module is not called and nothing is logged. *)
Theorem mixed_shapes_raise_value_error {F : Type} `{Arith F}
    (resample : PIL.filter) (fs : filesystem) (R : Runtime F)
    (index : Z) (td tc te tw : np.ndarray F) (loss : F) (w : world R) :
  class_tensor resample fs (load_dataset_files fs) "dog" index = Ok td ->
  class_tensor resample fs (load_dataset_files fs) "cat" index = Ok tc ->
  class_tensor resample fs (load_dataset_files fs) "elephant" index = Ok te ->
  class_tensor resample fs (load_dataset_files fs) "cow" index = Ok tw ->
  np.shape tc <> np.shape td \/ np.shape te <> np.shape td \/
    np.shape tw <> np.shape td ->
  train_step resample fs R (load_dataset_files fs) loss index w
    = (Raise ValueError, w).
Proof.
  intros Hd Hc He Hw Hdiff. unfold train_step, bindM, lift.
  rewrite build_batch_unfold, Hd, Hc, He, Hw. cbn [bind].
  destruct (np.stack [td; tc; te; tw]) as [b |] eqn:Hstack.
  - exfalso. destruct (stack_shapes _ _ Hstack) as (a0 & Hhd & _ & Hall).
    cbn in Hhd. injection Hhd as <-.
    destruct Hdiff as [Hdiff | [Hdiff | Hdiff]]; apply Hdiff; apply Hall; cbn; tauto.
  - unfold np.stack in Hstack.
    destruct (forallb _ _); [discriminate |]. injection Hstack as <-. reflexivity.
Qed.

Lemma mixed_shapes_raise_value_error_witness :
  train_step PIL.NEAREST Examples.one_each_fs Examples.counting_runtime
    (load_dataset_files Examples.one_each_fs) 0%Q 0
    (Build_world Examples.counting_runtime 0 [])
  = (Raise ValueError, Build_world Examples.counting_runtime 0 []).
Proof.
  destruct (class_tensor (F := Q) PIL.NEAREST Examples.one_each_fs
              (load_dataset_files Examples.one_each_fs) "dog" 0) as [td |] eqn:Hd;
    [| discriminate Hd].
  destruct (class_tensor (F := Q) PIL.NEAREST Examples.one_each_fs
              (load_dataset_files Examples.one_each_fs) "cat" 0) as [tc |] eqn:Hc;
    [| discriminate Hc].
  destruct (class_tensor (F := Q) PIL.NEAREST Examples.one_each_fs
              (load_dataset_files Examples.one_each_fs) "elephant" 0) as [te |] eqn:He;
    [| discriminate He].
  destruct (class_tensor (F := Q) PIL.NEAREST Examples.one_each_fs
              (load_dataset_files Examples.one_each_fs) "cow" 0) as [tw |] eqn:Hw;
    [| discriminate Hw].
  apply (mixed_shapes_raise_value_error PIL.NEAREST Examples.one_each_fs
           Examples.counting_runtime 0 td tc te tw 0%Q _ Hd Hc He Hw).
  left.
  apply (f_equal (result_map np.shape)) in Hd, Hc.
  cbn [result_map] in Hd, Hc.
  remember (np.shape td) as sd. remember (np.shape tc) as sc.
  vm_compute in Hd. vm_compute in Hc.
  injection Hd as <-. injection Hc as <-. discriminate.
Defined.

(** *** The order of the binary32 values *)

Lemma binary32_step_table :
  forallb
    (fun c =>
       forallb
         (fun v =>
            negb (Qle_bool (binary32.to_Q (normalized (F := spec_float) c (v + 1)))
                           (binary32.to_Q (normalized (F := spec_float) c v))))
         (range 255))
    (range 3) = true.
Proof. vm_compute. reflexivity. Qed.

Lemma binary32_step (c v : Z) :
  0 <= c < 3 ->
  0 <= v < 255 ->
  (binary32.to_Q (normalized (F := spec_float) c v)
   < binary32.to_Q (normalized (F := spec_float) c (v + 1)))%Q.
Proof.
  intros Hc Hv. pose proof binary32_step_table as Htable.
  rewrite forallb_forall in Htable.
  specialize (Htable c (range_in 3 c Hc)). cbv beta in Htable.
  rewrite forallb_forall in Htable.
  specialize (Htable v (range_in 255 v Hv)). cbv beta in Htable.
  apply negb_true_iff in Htable. apply Qnot_le_lt. intros Hle.
  apply Qle_bool_iff in Hle. congruence.
Qed.

(** In binary32 the normalization keeps the order of the 8-bit pixel values
    in each channel: a larger pixel value gives a strictly larger tensor
    value, so two different pixel values never give the same one. *)
Theorem binary32_normalization_increasing (c v1 v2 : Z) :
  0 <= c < 3 ->
  0 <= v1 ->
  v1 < v2 ->
  v2 <= 255 ->
  (binary32.to_Q (normalized (F := spec_float) c v1)
   < binary32.to_Q (normalized (F := spec_float) c v2))%Q.
Proof.
  intros Hc Hlo Hlt Hhi.
  replace v2 with (v1 + 1 + Z.of_nat (Z.to_nat (v2 - v1 - 1))) in * by lia.
  induction (Z.to_nat (v2 - v1 - 1)) as [| n IH].
  - rewrite Z.add_0_r. apply binary32_step; lia.
  - eapply Qlt_trans.
    + apply IH; lia.
    + replace (v1 + 1 + Z.of_nat (S n)) with (v1 + 1 + Z.of_nat n + 1) by lia.
      apply binary32_step; lia.
Qed.

Lemma binary32_normalization_increasing_witness :
  (binary32.to_Q (normalized (F := spec_float) 0 10)
   < binary32.to_Q (normalized (F := spec_float) 0 200))%Q.
Proof.
  apply binary32_normalization_increasing; lia.
Defined.
